(** * Hotplates: the MSHPro frame codec, duplex serial result and sequencer

    A shallow embedding of [Hotplates/MSHProCommunication.py],
    [Hotplates/SerialThreadedDuplex.py] and [Hotplates/MSHPro.py].

    - Python [bytes] are lists of integers ([list Z], each item a byte).
    - Python [float] is IEEE binary64, taken from the Standard Library's
      [SpecFloat] at precision 53 and maximal exponent 1024.
    - Python [dict] with string keys is a [gmap string PyVal].
    - Raising an exception is the [Raise] branch of [result]. *)

From Stdlib Require Import ZArith Lia Floats.SpecFloat.
From stdpp Require Import base option list strings gmap pretty.

Local Open Scope Z_scope.

(** ** Exceptions *)

(** The [ValueError]s of the program, one constructor per raise site. *)
Inductive ValueErrorMsg :=
| PleaseSupplyValue          (* to_bytes: "Please supply value." *)
| ValueOutsideMaximumRange   (* to_bytes: "Value outside maximum range." *)
| HeatSettingOutsideRange    (* heat: "Heat setting {} outside allowable range" *)
| StirSettingOutsideRange    (* stir: "Stir speed setting {} outside allowable range" *)
| InvalidLiteral             (* int(str) / float(str) on an unparsable string *)
| FloatNaNToInteger          (* int(nan) *)
| SubstringNotFound          (* str.index *)
| CouldNotFindCommand.       (* text_command *)

Inductive Exn :=
| ValueError (msg : ValueErrorMsg)
| TypeError
| OverflowError
| IndexError
| KeyError (key : string)
  (* MSHProCommunication *)
| IncompleteResponseException
| ResponseFormatException
| ResponseParseException
| HotplateException
  (* SerialThreadedDuplex *)
| NoCommunicationException
| NoDataException
| ReadingNotCompleteException
| RxThreadAlreadyStarted
  (* raised by the underlying serial port *)
| SerialPortError (code : nat).

Inductive result (A : Type) :=
| Ok (a : A)
| Raise (e : Exn).
Arguments Ok {A} a.
Arguments Raise {A} e.

Definition rbind {A B} (r : result A) (k : A -> result B) : result B :=
  match r with
  | Ok a => k a
  | Raise e => Raise e
  end.

Definition is_ok {A} (r : result A) : bool :=
  match r with Ok _ => true | Raise _ => false end.

Declare Scope result_scope.
Delimit Scope result_scope with result.
Notation "x <-? c ;; k" := (rbind c (fun x => k))
  (at level 100, c at next level, right associativity,
   format "'[v' x  <-?  c  ;;  '/' k ']'") : result_scope.

(** ** Python values *)

Abbreviation float := spec_float.

Module Float.
Definition prec : Z := 53.
Definition emax : Z := 1024.

Definition mul : float -> float -> float := SFmul prec emax.
Definition div : float -> float -> float := SFdiv prec emax.
Definition leb : float -> float -> bool := SFleb.
Definition eqb : float -> float -> bool := SFeqb.

(** [float(n)] for a Python integer: nearest binary64, ties to even;
    an integer beyond the largest finite float raises [OverflowError]. *)
Definition of_Z (n : Z) : result float :=
  match binary_normalize prec emax n 0 false with
  | S754_infinity _ => Raise OverflowError
  | f => Ok f
  end.

(** The float of a small integer literal or of a 16-bit reading. *)
Definition lit (n : Z) : float := binary_normalize prec emax n 0 false.

(** [int(f)]: truncation toward zero; [nan] and the infinities raise. *)
Definition to_Z (f : float) : result Z :=
  match f with
  | S754_zero _ => Ok 0
  | S754_nan => Raise (ValueError FloatNaNToInteger)
  | S754_infinity _ => Raise OverflowError
  | S754_finite s m e =>
      Ok (cond_Zopp s
            (match e with
             | Zneg p => Z.pos m / 2 ^ Z.pos p
             | _ => Z.pos m * 2 ^ e
             end))
  end.

(** Truth value of a float: everything but the two zeros. *)
Definition truthy (f : float) : bool :=
  match f with S754_zero _ => false | _ => true end.

(** [f == n] for a float and an integer: exact comparison of values. *)
Definition eqb_Z (f : float) (n : Z) : bool :=
  match f with
  | S754_zero _ => n =? 0
  | S754_finite s m e =>
      match e with
      | Zneg p => (Z.pos m mod 2 ^ Z.pos p =? 0)
                  && (cond_Zopp s (Z.pos m / 2 ^ Z.pos p) =? n)
      | _ => cond_Zopp s (Z.pos m * 2 ^ e) =? n
      end
  | _ => false
  end.
End Float.

Inductive PyVal :=
| VNone
| VBool (b : bool)
| VInt (n : Z)
| VFloat (f : float)
| VStr (s : string).

Definition bool_to_Z (b : bool) : Z := if b then 1 else 0.

(** [bool(v)], as used by [if not v]. *)
Definition truthy (v : PyVal) : bool :=
  match v with
  | VNone => false
  | VBool b => b
  | VInt n => negb (n =? 0)
  | VFloat f => Float.truthy f
  | VStr s => negb (String.eqb s "")
  end.

(** [a == b] on the values that occur in the program. *)
Definition py_eq (a b : PyVal) : bool :=
  match a, b with
  | VNone, VNone => true
  | VStr s, VStr t => String.eqb s t
  | VBool x, VBool y => Bool.eqb x y
  | VBool x, VInt n | VInt n, VBool x => bool_to_Z x =? n
  | VBool x, VFloat f | VFloat f, VBool x => Float.eqb_Z f (bool_to_Z x)
  | VInt n, VInt m => n =? m
  | VInt n, VFloat f | VFloat f, VInt n => Float.eqb_Z f n
  | VFloat f, VFloat g => Float.eqb f g
  | _, _ => false
  end.

(** Python's parsers of numeric strings are taken as given: [None] is the
    [ValueError] of an invalid literal. *)
Class StrParsers := {
  int_of_str : string -> option Z;
  float_of_str : string -> option float;
}.

Section Conversions.
Context `{StrParsers}.

(** [int(v)] *)
Definition py_int (v : PyVal) : result Z :=
  match v with
  | VNone => Raise TypeError
  | VBool b => Ok (bool_to_Z b)
  | VInt n => Ok n
  | VFloat f => Float.to_Z f
  | VStr s =>
      match int_of_str s with
      | Some n => Ok n
      | None => Raise (ValueError InvalidLiteral)
      end
  end.

(** [float(v)] *)
Definition py_float (v : PyVal) : result float :=
  match v with
  | VNone => Raise TypeError
  | VBool b => Float.of_Z (bool_to_Z b)
  | VInt n => Float.of_Z n
  | VFloat f => Ok f
  | VStr s =>
      match float_of_str s with
      | Some f => Ok f
      | None => Raise (ValueError InvalidLiteral)
      end
  end.
End Conversions.

(** ** Indexing and slicing with Python's negative positions *)

Definition py_index {A} (l : list A) (i : Z) : result A :=
  let len := Z.of_nat (length l) in
  let j := if i <? 0 then i + len else i in
  if j <? 0 then Raise IndexError
  else match l !! Z.to_nat j with
       | Some a => Ok a
       | None => Raise IndexError
       end.

Definition py_clamp (len i : Z) : Z :=
  Z.max 0 (Z.min len (if i <? 0 then i + len else i)).

(** [l[start:stop]] *)
Definition py_slice {A} (l : list A) (start stop : Z) : list A :=
  let len := Z.of_nat (length l) in
  let a := py_clamp len start in
  let b := py_clamp len stop in
  take (Z.to_nat (b - a)) (drop (Z.to_nat a) l).

(** [hay.index(needle)]: position of the first occurrence of a substring. *)
Fixpoint str_index_from (hay needle : string) (pos : nat) : result Z :=
  if String.prefix needle hay then Ok (Z.of_nat pos)
  else match hay with
       | EmptyString => Raise (ValueError SubstringNotFound)
       | String _ rest => str_index_from rest needle (S pos)
       end.

Definition str_index (hay needle : string) : result Z :=
  str_index_from hay needle 0.

(** [s[i]] on a string, as a one-character string. *)
Definition str_at (s : string) (i : Z) : result string :=
  match py_index (String.list_ascii_of_string s) i with
  | Ok c => Ok (String c EmptyString)
  | Raise e => Raise e
  end.

(** ** MSHProCommunication.py: the frame codec *)

Abbreviation bytes := (list Z).

Inductive COMMUNICATION :=
| PING
| INFO
| STATUS
| STIR
| HEAT
| _MODE.

#[global] Instance COMMUNICATION_eq_dec : EqDecision COMMUNICATION.
Proof. solve_decision. Defined.

(** The enum's value: the opcode. *)
Definition value (self : COMMUNICATION) : Z :=
  match self with
  | PING => 0xA0
  | INFO => 0xA1
  | STATUS => 0xA2
  | STIR => 0xB1
  | HEAT => 0xB2
  | _MODE => 0xB3
  end.

(** [self.name.lower()] *)
Definition name_lower (self : COMMUNICATION) : string :=
  match self with
  | PING => "ping"
  | INFO => "info"
  | STATUS => "status"
  | STIR => "stir"
  | HEAT => "heat"
  | _MODE => "_mode"
  end.

Definition len_rx (self : COMMUNICATION) : Z :=
  match self with
  | INFO | STATUS => 11
  | _ => 6
  end.

(** Sum of the bytes, discarding overflow. *)
Definition checksum (val : bytes) : Z :=
  fold_left (fun checksum_result c => Z.land (checksum_result + c) 0xFF) val 0.

(** The tail of [to_bytes], once the value is an integer: the range check
    and the frame. *)
Definition encode_frame (self : COMMUNICATION) (val : Z) : result bytes :=
  if negb ((0 <=? val) && (val <=? 65535))
  then Raise (ValueError ValueOutsideMaximumRange)
  else
    let encoded_value :=
      [value self; Z.land (Z.shiftr val 8) 0xFF; Z.land val 0xFF] in
    Ok ([0xFE] ++ encoded_value ++ [0x00; checksum encoded_value]).

Section Codec.
Context `{StrParsers}.
Local Open Scope result_scope.

(** The integer that [to_bytes] puts on the wire for a value-carrying
    command: [int(val)] for STIR, [int(float(val) * 10)] for HEAT. *)
Definition encoded_int (self : COMMUNICATION) (val : PyVal) : result Z :=
  match self with
  | STIR => py_int val
  | HEAT =>
      f <-? py_float val ;;
      Float.to_Z (Float.mul f (Float.lit 10))
  | _ => Raise TypeError
  end.

Definition to_bytes (self : COMMUNICATION) (val : PyVal) : result bytes :=
  match self with
  | PING => Ok [0xFE; 0xA0; 0x00; 0x00; 0x00; 0xA0]
  | INFO => Ok [0xFE; 0xA1; 0x00; 0x00; 0x00; 0xA1]
  | STATUS => Ok [0xFE; 0xA2; 0x00; 0x00; 0x00; 0xA2]
  | _MODE => Ok [0xFE; 0xB3; 0x00; 0x00; 0x00; 0xB3]
  | STIR | HEAT =>
      match val with
      | VNone => Raise (ValueError PleaseSupplyValue)
      | _ =>
          n <-? encoded_int self val ;;
          encode_frame self n
      end
  end.
End Codec.

(** [try: ... except Exception: raise ResponseParseException] *)
Definition or_parse_exception {A} (r : result A) : result A :=
  match r with
  | Ok a => Ok a
  | Raise _ => Raise ResponseParseException
  end.

(** [(hi << 8) + lo] *)
Definition be16 (hi lo : Z) : Z := Z.shiftl hi 8 + lo.

(** [float(n) / 10.0] *)
Definition tenths (n : Z) : result PyVal :=
  match Float.of_Z n with
  | Ok f => Ok (VFloat (Float.div f (Float.lit 10)))
  | Raise e => Raise e
  end.

Section Parse.
Local Open Scope result_scope.

Definition parse_ack (self : COMMUNICATION) (b_data : bytes)
    (response : gmap string PyVal) : result (gmap string PyVal) :=
  if bool_decide (b_data = [0; 0; 0])
  then Ok (<["success" := VBool true]> response)
  else if bool_decide (b_data = [1; 0; 0]) && negb (bool_decide (self = PING))
  then Raise HotplateException
  else Raise ResponseParseException.

Definition parse_info (b_data : bytes)
    (response : gmap string PyVal) : result (gmap string PyVal) :=
  or_parse_exception (
    d0 <-? py_index b_data 0 ;;
    mode <-? str_at "_ABC" d0 ;;
    let response := <["mode" := VStr mode]> response in
    d1 <-? py_index b_data 1 ;;
    let response := <["stir_on" := VBool (d1 =? 0)]> response in
    d2 <-? py_index b_data 2 ;;
    let response := <["heat_on" := VBool (d2 =? 0)]> response in
    d3 <-? py_index b_data 3 ;;
    d4 <-? py_index b_data 4 ;;
    heat_limit <-? tenths (be16 d3 d4) ;;
    let response := <["heat_limit" := heat_limit]> response in
    d5 <-? py_index b_data 5 ;;
    let response := <["heat_alarm" := VBool (d5 =? 0)]> response in
    Ok (<["success" := VBool true]> response)).

Definition parse_status (b_data : bytes)
    (response : gmap string PyVal) : result (gmap string PyVal) :=
  or_parse_exception (
    d0 <-? py_index b_data 0 ;;
    d1 <-? py_index b_data 1 ;;
    let response := <["stir_set" := VInt (be16 d0 d1)]> response in
    d2 <-? py_index b_data 2 ;;
    d3 <-? py_index b_data 3 ;;
    let response := <["stir_actual" := VInt (be16 d2 d3)]> response in
    d4 <-? py_index b_data 4 ;;
    d5 <-? py_index b_data 5 ;;
    heat_set <-? tenths (be16 d4 d5) ;;
    let response := <["heat_set" := heat_set]> response in
    d6 <-? py_index b_data 6 ;;
    d7 <-? py_index b_data 7 ;;
    heat_actual <-? tenths (be16 d6 d7) ;;
    let response := <["heat_actual" := heat_actual]> response in
    Ok (<["success" := VBool true]> response)).

Definition parse_response (self : COMMUNICATION) (b : bytes)
    : result (gmap string PyVal) :=
  let response : gmap string PyVal := {["success" := VBool false]} in
  (* check response format *)
  if Z.of_nat (length b) <? len_rx self
  then Raise IncompleteResponseException
  else
    b0 <-? py_index b 0 ;;
    b1 <-? py_index b 1 ;;
    b_last <-? py_index b (-1) ;;
    if negb ((b0 =? 0xFD)
             && (b1 =? value self)
             && (b_last =? checksum (py_slice b 1 (-1))))
    then Raise ResponseFormatException
    else
      let b_data := py_slice b 2 (-1) in
      match self with
      | PING | STIR | HEAT | _MODE => parse_ack self b_data response
      | INFO => parse_info b_data response
      | STATUS => parse_status b_data response
      end.
End Parse.


(** ** SerialThreadedDuplex.py: the duplex connection *)

(** The underlying [serial.Serial] port, as far as the program uses it.
    [port_exchange p data size] is one exchange as the caller sees it after
    the join: both buffers are reset, the reader collects at most [size]
    bytes until the timeout while [data] is written, and the outcome is the
    collected bytes or the exception that the reader or the writer met. *)
Class Transport (P : Type) := {
  port_open : P -> P * result unit;
  port_exchange : P -> bytes -> Z -> P * result bytes;
}.

Module SerialThreadedDuplex.

Record Thread := { is_alive : bool }.

(** The object's fields; [written] is a ghost field that records every
    request handed to the port, oldest first. *)
Record Serial (P : Type) := {
  port : P;
  is_open : bool;
  rx_thread : option Thread;
  rx_value : option bytes;
  rx_exception : option Exn;
  written : list bytes;
}.
Arguments port {P} _.
Arguments is_open {P} _.
Arguments rx_thread {P} _.
Arguments rx_value {P} _.
Arguments rx_exception {P} _.
Arguments written {P} _.

Section Duplex.
Context {P : Type} `{Transport P}.

(** [__init__]: nothing received, no reader, port closed. *)
Definition init (p : P) : Serial P :=
  {| port := p; is_open := false; rx_thread := None;
     rx_value := None; rx_exception := None; written := [] |}.

(** Raise any exception encountered during the process. *)
Definition exception (self : Serial P) : result unit :=
  match rx_exception self with
  | Some e => Raise e
  | None => Ok tt
  end.

Definition thread_running (self : Serial P) : bool :=
  match rx_thread self with
  | Some t => is_alive t
  | None => false
  end.

(** The [value] property: most recent received value. *)
Definition value (self : Serial P) : result bytes :=
  match exception self with
  | Raise e => Raise e
  | Ok _ =>
      if thread_running self
      then Raise ReadingNotCompleteException
      else match rx_value self with
           | None => Raise NoCommunicationException
           | Some [] => Raise NoDataException
           | Some v => Ok v
           end
  end.

Definition __write_with_function (data : bytes) (size : Z)
    (self : Serial P) : Serial P * result bytes :=
  if thread_running self
  then (self, Raise RxThreadAlreadyStarted)
  else
    let '(p', r) := port_exchange (port self) data size in
    let self' :=
      {| port := p';
         is_open := is_open self;
         rx_thread := Some {| is_alive := false |};
         rx_value := match r with Ok v => Some v | Raise _ => None end;
         rx_exception := match r with Ok _ => None | Raise e => Some e end;
         written := written self ++ [data] |} in
    (self', value self').

Definition write_with_read (data : bytes) (size : Z)
    (self : Serial P) : Serial P * result bytes :=
  __write_with_function data size self.

(** [serial.Serial.open], for a port that is not open yet. *)
Definition open (self : Serial P) : Serial P * result unit :=
  let '(p', r) := port_open (port self) in
  ({| port := p';
      is_open := is_ok r;
      rx_thread := rx_thread self;
      rx_value := rx_value self;
      rx_exception := rx_exception self;
      written := written self |}, r).

End Duplex.
End SerialThreadedDuplex.

(** ** MSHPro.py: the sequencer *)

Module MSHPro.
Import SerialThreadedDuplex.

Definition HEATLIMIT_MAX : float := Float.lit 340.
Definition HEATLIMIT_MIN : float := Float.lit 25.
Definition STIRLIMIT_MAX : Z := 1500.
Definition STIRLIMIT_MIN : Z := 100.

Abbreviation dict := (gmap string PyVal).

(** [d[key]] *)
Definition dict_get (d : dict) (key : string) : result PyVal :=
  match d !! key with
  | Some v => Ok v
  | None => Raise (KeyError key)
  end.

Section Sequencer.
Context {P : Type} `{Transport P} `{StrParsers}.

(** A method of the object: it runs on the connection [self.__Serial] and
    returns a value or raises. *)
Definition IO (A : Type) : Type := Serial P -> Serial P * result A.

Definition ret {A} (a : A) : IO A := fun s => (s, Ok a).

Definition raise {A} (e : Exn) : IO A := fun s => (s, Raise e).

Definition lift {A} (r : result A) : IO A := fun s => (s, r).

Definition bind {A B} (m : IO A) (k : A -> IO B) : IO B :=
  fun s =>
    match m s with
    | (s', Ok a) => k a s'
    | (s', Raise e) => (s', Raise e)
    end.

(** [try: m except Exception as e: h e] *)
Definition try_except {A} (m : IO A) (h : Exn -> IO A) : IO A :=
  fun s =>
    match m s with
    | (s', Ok a) => (s', Ok a)
    | (s', Raise e) => h e s'
    end.

Notation "x <- c ;; k" := (bind c (fun x => k))
  (at level 100, c at next level, right associativity).
Notation "c ;;; k" := (bind c (fun _ => k))
  (at level 100, right associativity).

Definition serial_open : IO unit :=
  fun s => if is_open s then (s, Ok tt) else open s.

Definition __command (command : COMMUNICATION) (var : PyVal)
    (d : option dict) : IO dict :=
  let d := match d with None => ∅ | Some d => d end in
  serial_open ;;;
  w_bytes <- lift (to_bytes command var) ;;
  r_bytes <- write_with_read w_bytes (len_rx command) ;;
  parsed <- lift (parse_response command r_bytes) ;;
  (* d.update(parsed) *)
  ret (parsed ∪ d).

Definition ping : IO bool :=
  try_except
    (r <- __command PING VNone None ;;
     success <- lift (dict_get r "success") ;;
     ret (match success with VBool true => true | _ => false end))
    (fun _ => ret false).

Definition _status : IO dict := __command STATUS VNone None.

Definition _info : IO dict := __command INFO VNone None.

Definition status (raw_values : bool) : IO dict :=
  r <- __command STATUS VNone None ;;
  r <- __command INFO VNone (Some r) ;;
  if negb raw_values then
    heat_on <- lift (dict_get r "heat_on") ;;
    let r := if negb (truthy heat_on)
             then <["heat_set" := VStr "Off"]> r else r in
    stir_on <- lift (dict_get r "stir_on") ;;
    let r := if negb (truthy stir_on)
             then <["stir_set" := VStr "Off"]> r else r in
    lift (dict_get r "heat_alarm") ;;;
    ret r
  else ret r.

(** The loop of [__off] over its commands. *)
Fixpoint __off_loop (current_status : dict) (args : list COMMUNICATION)
    : IO unit :=
  match args with
  | [] => ret tt
  | command :: rest =>
      let name := name_lower command in
      on_status <- lift (dict_get current_status (name +:+ "_on")) ;;
      if negb (truthy on_status) then __off_loop current_status rest
      else
        set_value <- lift (dict_get current_status (name +:+ "_set")) ;;
        r <- __command command set_value None ;;
        lift (dict_get r "success") ;;;
        __off_loop current_status rest
  end.

Definition __off (args : list COMMUNICATION) : IO unit :=
  current_status <- status false ;;
  __off_loop current_status args.

Definition __setval (command : COMMUNICATION) (val : PyVal) : IO bool :=
  current_status <- status true ;;
  let name := name_lower command in
  set_value <- lift (dict_get current_status (name +:+ "_set")) ;;
  on_status <- lift (dict_get current_status (name +:+ "_on")) ;;
  (* switch on to current value *)
  let val := match val with VNone => set_value | _ => val end in
  if py_eq set_value val then
    (* already at correct value *)
    if truthy on_status then ret true
    else
      r <- __command command set_value None ;;
      success <- lift (dict_get r "success") ;;
      ret (truthy success)
  else
    (* send value once: changes the value and toggles on / off *)
    r <- __command command val None ;;
    success <- lift (dict_get r "success") ;;
    if negb (truthy success) then ret false
    else if negb (truthy on_status) then ret true
    else
      (* send value a second time to turn back on *)
      r <- __command command val None ;;
      success <- lift (dict_get r "success") ;;
      ret (truthy success).

Definition off : IO unit := __off [HEAT; STIR].

Definition heat_off : IO unit := __off [HEAT].

Definition stir_off : IO unit := __off [STIR].

Definition heat (val : PyVal) : IO unit :=
  if negb (truthy val) then heat_off
  else
    try_except
      (val <- lift (py_float val) ;;
       if negb (Float.leb HEATLIMIT_MIN val && Float.leb val HEATLIMIT_MAX)
       then heat_off ;;; raise (ValueError HeatSettingOutsideRange)
       else __setval HEAT (VFloat val) ;;; ret tt)
      (fun e => heat_off ;;; raise e).

Definition stir (val : PyVal) : IO unit :=
  if negb (truthy val) then stir_off
  else
    val <- lift (py_int val) ;;
    if negb ((STIRLIMIT_MIN <=? val) && (val <=? STIRLIMIT_MAX))
    then raise (ValueError StirSettingOutsideRange)
    else __setval STIR (VInt val) ;;; ret tt.

(** [for _ in range(n): self.__command(COMMUNICATION._MODE)] *)
Fixpoint cycle_mode (n : nat) : IO unit :=
  match n with
  | O => ret tt
  | S n' => __command _MODE VNone None ;;; cycle_mode n'
  end.

Definition mode (mode : string) : IO unit :=
  target_mode <- lift (str_index "ABC" mode) ;;
  info <- _info ;;
  current <- lift (dict_get info "mode") ;;
  set_mode <- lift (match current with
                    | VStr s => str_index "ABC" s
                    | _ => Raise TypeError
                    end) ;;
  cycle_mode (Z.to_nat ((3 + target_mode - set_mode) mod 3)).

(** The connection between two exchanges: the port is open and no reader
    is alive. *)
Definition ready (s : Serial P) : Prop :=
  is_open s = true /\ thread_running s = false.

(** What a command's result is once the reply has been read. *)
Definition decoded (command : COMMUNICATION) (d : option dict)
    (received : result bytes) : result dict :=
  rbind received (fun r_bytes =>
    rbind (parse_response command r_bytes) (fun parsed =>
      Ok (parsed ∪ match d with None => ∅ | Some d => d end))).


End Sequencer.
End MSHPro.


(** ** SerialThreadedDuplex.py: port names *)

(** What [port_parser] asks of the system: [sys.platform] and
    [os.path.exists]. *)
Class OS := {
  platform : string;
  path_exists : string -> bool;
}.

(** The outcomes of [port_parser]: the parsed name, a
    [PortNotFoundException] for that name, or another exception. *)
Inductive port_result :=
| PortName (name : string)
| PortNotFoundException (name : string)
| PortRaise (e : Exn).

Section PortParser.
Context `{StrParsers} `{OS}.

(** [needle in hay] for strings. *)
Definition str_contains (hay needle : string) : bool :=
  is_ok (str_index hay needle).

(** The [try] block of [port_parser]: an integer, or anything [int]
    accepts, becomes the port name of the current system; on a
    [ValueError] the port is kept as the string it is ([str] of a NaN, the
    only other value whose [int] is a [ValueError], is ["nan"]). *)
Definition port_name (port : PyVal) : result string :=
  match py_int port with
  | Ok n =>
      if str_contains platform "win"
      then Ok ("COM" +:+ pretty n)
      else Ok ("/dev/ttyUSB" +:+ pretty n)
  | Raise (ValueError _) =>
      match port with
      | VStr s => Ok s
      | _ => Ok "nan"%string
      end
  | Raise e => Raise e
  end.

Definition port_parser (port : PyVal) (check_exists : bool) : port_result :=
  match port_name port with
  | Raise e => PortRaise e
  | Ok name =>
      if check_exists && negb (path_exists name)
      then PortNotFoundException name
      else PortName name
  end.

End PortParser.

(** ** MSHPro.py: the text commands *)

(** [str.upper] and [str.split] are taken as given. *)
Class StrMethods := {
  str_upper : string -> string;
  str_split : string -> list string;
}.

(** What the methods behind a text command return: [None], the [bool] of
    [ping] or the dictionary of [status]. *)
Inductive Returned :=
| RNone
| RBool (b : bool)
| RDict (d : gmap string PyVal).

Section TextCommand.
Import SerialThreadedDuplex MSHPro.
Context {P : Type} `{Transport P} `{StrParsers} `{StrMethods}.

Definition returning {A} (f : A -> Returned) (m : @IO P A)
    : @IO P Returned :=
  bind m (fun a => ret (f a)).

(** [cmd_dict[name]()] for the commands called without a value. *)
Definition call_plain (name : string) : @IO P Returned :=
  if String.eqb name "PING" then returning RBool ping
  else if String.eqb name "STATUS" then returning RDict (status false)
  else if String.eqb name "OFF" then returning (fun _ => RNone) off
  else raise (KeyError name).

(** [cmd_dict[name](val)] for STIR, HEAT and MODE; [mode] starts with
    ["ABC".index(mode)], a [TypeError] for anything but a string. *)
Definition call_value (name : string) (val : PyVal) : @IO P Returned :=
  if String.eqb name "STIR" then returning (fun _ => RNone) (stir val)
  else if String.eqb name "HEAT" then returning (fun _ => RNone) (heat val)
  else if String.eqb name "MODE" then
    match val with
    | VStr m => returning (fun _ => RNone) (mode m)
    | _ => raise TypeError
    end
  else raise (KeyError name).

Definition text_command (cmd : string) : @IO P Returned :=
  let cmds := str_split (str_upper cmd) in
  bind (lift (py_index cmds 0)) (fun name =>
    if negb (bool_decide
               (name ∈ ["PING"; "STATUS"; "OFF"; "STIR"; "HEAT"; "MODE"]))
    then raise (ValueError CouldNotFindCommand)
    else if bool_decide (name ∈ ["STIR"; "HEAT"; "MODE"]) then
      bind (lift (py_index cmds 1)) (fun arg =>
        if String.eqb arg "OFF" then call_value name (VBool false)
        else call_value name (VStr arg))
    else call_plain name).

End TextCommand.

(** ** What the sequencer puts on the wire *)

Section Wire.
Import SerialThreadedDuplex MSHPro.
Context {P : Type} `{Transport P} `{StrParsers}.

(** [m], run on any connection, only appends to the requests written, each
    of the appended requests satisfies [Q], and a value that [m] returns
    satisfies [R]. *)
Definition emits {A} (Q : bytes -> Prop) (R : A -> Prop) (m : @IO P A)
    : Prop :=
  forall s : Serial P,
    (exists frames,
       written (m s).1 = written s ++ frames /\ Forall Q frames)
    /\ (forall a, (m s).2 = Ok a -> R a).

(** The two requests of a status read. *)
Definition status_request (frame : bytes) : Prop :=
  frame = [0xFE; 0xA2; 0x00; 0x00; 0x00; 0xA2]
  \/ frame = [0xFE; 0xA1; 0x00; 0x00; 0x00; 0xA1].

(** Every set value that a raw status read returns for the heat or the
    stir channel satisfies [D]: an assumption on what the device reports. *)
Definition reports (D : COMMUNICATION -> PyVal -> Prop) : Prop :=
  forall (s0 s1 : Serial P) (current_status : dict)
         (command : COMMUNICATION) (v : PyVal),
    command = HEAT \/ command = STIR ->
    status true s0 = (s1, Ok current_status) ->
    current_status !! (name_lower command +:+ "_set") = Some v ->
    D command v.

(** The request of [command] that carries a value satisfying [D]. *)
Definition toggle_request (D : COMMUNICATION -> PyVal -> Prop)
    (command : COMMUNICATION) (frame : bytes) : Prop :=
  exists v, D command v /\ to_bytes command v = Ok frame.

(** What a status dictionary says of the two channels: the flags are
    booleans, and the set value of a channel satisfies [D], unless the
    view is normalized and the channel is off. *)
Definition channel_readings (D : COMMUNICATION -> PyVal -> Prop)
    (raw_values : bool) (current_status : dict) : Prop :=
  forall command : COMMUNICATION,
    command = HEAT \/ command = STIR ->
    exists (on : bool) (v : PyVal),
      current_status !! (name_lower command +:+ "_on") = Some (VBool on)
      /\ current_status !! (name_lower command +:+ "_set") = Some v
      /\ (on = true \/ raw_values = true -> D command v).

End Wire.

(** ** Fixtures for running the model *)

(** A response frame as the device builds it: marker, opcode echo, data
    and the checksum of everything between marker and checksum. *)
Definition response_frame (self : COMMUNICATION) (data : bytes) : bytes :=
  0xFD :: value self :: data ++ [checksum (value self :: data)].

(** A port that replays a script, one outcome per exchange; when the script
    is exhausted the reader times out with nothing collected. *)
Record Scripted := { script : list (result bytes) }.

Definition Scripted_transport : Transport Scripted :=
  {| port_open p := (p, Ok tt);
     port_exchange p _ _ :=
       match script p with
       | [] => (p, Ok [])
       | r :: rest => ({| script := rest |}, r)
       end |}.

(** Parsers that accept plain decimal digits only. *)
Fixpoint digits_value (s : string) (acc : Z) : option Z :=
  match s with
  | EmptyString => Some acc
  | String c rest =>
      let n := Z.of_nat (Ascii.nat_of_ascii c) in
      if (48 <=? n) && (n <=? 57)
      then digits_value rest (10 * acc + (n - 48))
      else None
  end.

Definition digit_parsers : StrParsers :=
  {| int_of_str s :=
       match s with
       | EmptyString => None
       | _ => digits_value s 0
       end;
     float_of_str s :=
       match s with
       | EmptyString => None
       | _ => match digits_value s 0 with
              | Some n => match Float.of_Z n with
                          | Ok f => Some f
                          | Raise _ => None
                          end
              | None => None
              end
       end |}.

(** Replies of a hotplate. [status_reply] carries the four 16-bit readings
    (the temperatures in tenths of a degree); [info_reply] the mode byte,
    the stir and heat flags (zero is on), the limit 340.0 and the alarm
    byte; [ack] is the acknowledgement of a command. *)
Definition status_reply (stir_set stir_actual heat_set heat_actual : Z)
    : result bytes :=
  Ok (response_frame STATUS
        [stir_set / 256; stir_set mod 256;
         stir_actual / 256; stir_actual mod 256;
         heat_set / 256; heat_set mod 256;
         heat_actual / 256; heat_actual mod 256]).

Definition info_reply (mode stir_flag heat_flag : Z) : result bytes :=
  Ok (response_frame INFO
        [mode; stir_flag; heat_flag; 0x0D; 0x48; 0x00; 0x00; 0x00]).

Definition ack (command : COMMUNICATION) : result bytes :=
  Ok (response_frame command [0x00; 0x00; 0x00]).

(** A fresh connection to a port that will answer with [replies]. *)
Definition connection (replies : list (result bytes))
    : SerialThreadedDuplex.Serial Scripted :=
  SerialThreadedDuplex.init {| script := replies |}.

(** [upper] and [split] for ASCII text: letters a to z, and the
    whitespace characters space, tab, line feed, vertical tab, form feed
    and carriage return. *)
Definition ascii_upper (c : Ascii.ascii) : Ascii.ascii :=
  let n := Ascii.nat_of_ascii c in
  if ((97 <=? n) && (n <=? 122))%nat then Ascii.ascii_of_nat (n - 32) else c.

Definition ascii_space (c : Ascii.ascii) : bool :=
  let n := Ascii.nat_of_ascii c in
  ((n =? 32) || ((9 <=? n) && (n <=? 13)))%nat.

Fixpoint upper_ascii (s : string) : string :=
  match s with
  | EmptyString => EmptyString
  | String c rest => String (ascii_upper c) (upper_ascii rest)
  end.

(** [word] is the token being read, reversed. *)
Fixpoint split_ascii (s : string) (word : list Ascii.ascii) : list string :=
  let flush := match word with
               | [] => []
               | _ => [String.string_of_list_ascii (rev word)]
               end in
  match s with
  | EmptyString => flush
  | String c rest =>
      if ascii_space c then flush ++ split_ascii rest []
      else split_ascii rest (c :: word)
  end.

Definition ascii_methods : StrMethods :=
  {| str_upper := upper_ascii; str_split s := split_ascii s [] |}.

(** A Linux system on which only the listed paths exist. *)
Definition linux_with (paths : list string) : OS :=
  {| platform := "linux"; path_exists name := bool_decide (name ∈ paths) |}.

(** Whether the reading [n] (tenths of a degree), decoded as INFO and
    STATUS decode it, is encoded by HEAT as [n] again. *)
Definition reencodes (n : Z) : bool :=
  match tenths n with
  | Ok (VFloat f) =>
      match Float.to_Z (Float.mul f (Float.lit 10)) with
      | Ok m => m =? n
      | Raise _ => false
      end
  | _ => false
  end.

(** A hotplate that always answers the same: stirring off at 500 rpm,
    heating on at 200.0 degrees; it acknowledges STIR and HEAT and is
    silent on everything else. *)
Definition steady_hotplate : Transport unit :=
  {| port_open _ := (tt, Ok tt);
     port_exchange _ data _ :=
       (tt,
        match data !! 1%nat with
        | Some 0xA2 => status_reply 500 0 2000 215
        | Some 0xA1 => info_reply 1 1 0
        | Some 0xB1 => ack STIR
        | Some 0xB2 => ack HEAT
        | _ => Ok []
        end) |}.

(** The set values that [steady_hotplate] reports. *)
Definition steady_values (command : COMMUNICATION) (v : PyVal) : Prop :=
  match command with
  | HEAT => v = VFloat (Float.div (Float.lit 2000) (Float.lit 10))
  | STIR => v = VInt 500
  | _ => False
  end.

(** * Properties *)

(** ** Helper lemmas: slicing a frame *)

Lemma py_slice_data (a b c : Z) (data : bytes) :
  py_slice (a :: b :: data ++ [c]) 2 (-1) = data.
Proof.
  unfold py_slice, py_clamp. cbn [length].
  rewrite length_app. cbn [length].
  replace (2 <? 0) with false by reflexivity.
  replace (-1 <? 0) with true by reflexivity.
  rewrite Z.max_r, Z.min_r by lia.
  rewrite Z.max_r, Z.min_r by lia.
  replace (Z.to_nat 2) with 2%nat by reflexivity. cbn [drop].
  replace (Z.to_nat _) with (length data) by lia.
  by rewrite drop_0, take_app_length.
Qed.

Lemma py_slice_summed (a b c : Z) (data : bytes) :
  py_slice (a :: b :: data ++ [c]) 1 (-1) = b :: data.
Proof.
  unfold py_slice, py_clamp. cbn [length].
  rewrite length_app. cbn [length].
  replace (1 <? 0) with false by reflexivity.
  replace (-1 <? 0) with true by reflexivity.
  rewrite Z.max_r, Z.min_r by lia.
  rewrite Z.max_r, Z.min_r by lia.
  replace (Z.to_nat 1) with 1%nat by reflexivity. cbn [drop].
  replace (Z.to_nat _) with (S (length data)) by lia.
  cbn [take]. by rewrite take_app_length.
Qed.

Lemma py_index_last (a b c : Z) (data : bytes) :
  py_index (a :: b :: data ++ [c]) (-1) = Ok c.
Proof.
  unfold py_index. cbn [length]. rewrite length_app. cbn [length].
  replace (-1 <? 0) with true by reflexivity.
  destruct (_ <? 0) eqn:E; [apply Z.ltb_lt in E; lia|].
  replace (Z.to_nat _) with (S (S (length data))) by lia.
  cbn [lookup list_lookup].
  by rewrite (list_lookup_middle data [] c).
Qed.

(** Decoding a frame that has the marker, the opcode echo and the right
    checksum comes down to decoding its data. *)
Lemma parse_response_frame (self : COMMUNICATION) (data : bytes) :
  len_rx self - 3 <= Z.of_nat (length data) ->
  parse_response self (response_frame self data) =
    match self with
    | INFO => parse_info data {["success" := VBool false]}
    | STATUS => parse_status data {["success" := VBool false]}
    | _ => parse_ack self data {["success" := VBool false]}
    end.
Proof.
  intros Hlen. unfold parse_response, response_frame.
  destruct (_ <? len_rx self) eqn:E.
  { apply Z.ltb_lt in E. cbn [length] in E. rewrite length_app in E.
    cbn [length] in E. lia. }
  rewrite py_index_last, py_slice_summed, py_slice_data.
  cbn [py_index rbind]. unfold py_index. cbn [length].
  cbn -[checksum parse_ack parse_info parse_status value Z.of_nat].
  rewrite !Z.eqb_refl. cbn [andb negb]. by destruct self.
Qed.

(** ** The frame codec *)

(** C4: a byte string shorter than the command's expected response length
    (6, or 11 for INFO and STATUS) is rejected with
    [IncompleteResponseException], whatever its bytes are: the length check
    comes before the marker, opcode-echo and checksum checks, and nothing
    is parsed. *)
Theorem parse_response_short (self : COMMUNICATION) (b : bytes) :
  (length b < match self with INFO | STATUS => 11 | _ => 6 end)%nat ->
  parse_response self b = Raise IncompleteResponseException.
Proof.
  intros Hlen. unfold parse_response.
  destruct (_ <? len_rx self) eqn:E; [done|].
  apply Z.ltb_ge in E. destruct self; cbn in E; lia.
Qed.

Lemma parse_response_short_witness :
  parse_response STATUS [0x00; 0xA2; 0xFF] = Raise IncompleteResponseException.
Proof. apply parse_response_short. cbn. lia. Defined.

(** [& 0xFF] keeps the remainder modulo 256. *)
Lemma land_255 (a : Z) : Z.land a 0xFF = a mod 256.
Proof. change 0xFF with (Z.ones 8). by rewrite Z.land_ones. Qed.

Lemma checksum_from (acc : Z) (val : bytes) :
  fold_left (fun r c => Z.land (r + c) 0xFF) val acc
  = if val is [] then acc else (acc + foldr Z.add 0 val) mod 256.
Proof.
  revert acc. induction val as [|c val IH]; intros acc; [done|].
  cbn [fold_left foldr]. rewrite IH, land_255.
  destruct val as [|c' val].
  - cbn. by rewrite Z.add_0_r.
  - rewrite Z.add_mod_idemp_l by done. f_equal. lia.
Qed.

(** The checksum is the sum of the bytes modulo 256. *)
Lemma checksum_sum (val : bytes) : checksum val = foldr Z.add 0 val mod 256.
Proof.
  unfold checksum. rewrite checksum_from. by destruct val.
Qed.

(** C3: a well-formed acknowledgement frame (PING, STIR, HEAT or MODE)
    decodes to success when its data is 00 00 00; data 01 00 00 raises
    [HotplateException] for STIR, HEAT and MODE but
    [ResponseParseException] for PING; any other data raises
    [ResponseParseException]. *)
Theorem parse_response_ack (self : COMMUNICATION) (data : bytes) :
  self ∈ [PING; STIR; HEAT; _MODE] ->
  (3 <= length data)%nat ->
  parse_response self (response_frame self data) =
    if bool_decide (data = [0; 0; 0]) then Ok {["success" := VBool true]}
    else if bool_decide (data = [1; 0; 0]) then
      if bool_decide (self = PING) then Raise ResponseParseException
      else Raise HotplateException
    else Raise ResponseParseException.
Proof.
  intros Hself Hlen.
  assert (Hcases : self = PING \/ self = STIR \/ self = HEAT \/ self = _MODE).
  { rewrite !elem_of_cons, elem_of_nil in Hself. tauto. }
  rewrite parse_response_frame
    by (destruct Hcases as [->|[->|[->| ->]]]; cbn; lia).
  assert (parse_response_ack_eq :
    match self with
    | INFO => parse_info data {["success" := VBool false]}
    | STATUS => parse_status data {["success" := VBool false]}
    | _ => parse_ack self data {["success" := VBool false]}
    end = parse_ack self data {["success" := VBool false]})
    by (by destruct Hcases as [->|[->|[->| ->]]]).
  rewrite parse_response_ack_eq. unfold parse_ack.
  rewrite insert_singleton_eq.
  repeat case_bool_decide; done.
Qed.

Lemma parse_response_ack_witness :
  parse_response HEAT [0xFD; 0xB2; 0x01; 0x00; 0x00; 0xB3]
  = Raise HotplateException.
Proof.
  apply (parse_response_ack HEAT [1; 0; 0]); [set_solver | cbn; lia].
Defined.

(** C5: whenever [to_bytes] returns, the result is the 6-byte frame
    [0xFE, opcode, value_hi, value_lo, 0x00, checksum] with the checksum the
    sum of [opcode, value_hi, value_lo, 0x00] modulo 256 and
    [value_hi, value_lo] the big-endian bytes of the encoded value; the
    value-less commands PING, INFO, STATUS and MODE always return their
    fixed frame with value 0, whatever value is passed. *)
Theorem to_bytes_frame `{StrParsers} (self : COMMUNICATION) (val : PyVal) :
  (to_bytes PING val = Ok [0xFE; 0xA0; 0x00; 0x00; 0x00; 0xA0]
   /\ to_bytes INFO val = Ok [0xFE; 0xA1; 0x00; 0x00; 0x00; 0xA1]
   /\ to_bytes STATUS val = Ok [0xFE; 0xA2; 0x00; 0x00; 0x00; 0xA2]
   /\ to_bytes _MODE val = Ok [0xFE; 0xB3; 0x00; 0x00; 0x00; 0xB3])
  /\ forall b : bytes,
      to_bytes self val = Ok b ->
      exists value_hi value_lo : Z,
        0 <= value_hi < 256 /\ 0 <= value_lo < 256
        /\ b = [0xFE; value self; value_hi; value_lo; 0x00;
                (value self + value_hi + value_lo + 0x00) mod 256]
        /\ List.last b 0 = checksum [value self; value_hi; value_lo; 0x00]
        /\ match self with
           | STIR | HEAT => encoded_int self val = Ok (256 * value_hi + value_lo)
           | _ => value_hi = 0 /\ value_lo = 0
           end.
Proof.
  split; [done|]. intros b Hb.
  assert (Hfixed : forall op : Z,
    b = [0xFE; op; 0; 0; 0; op] -> op = value self -> 0 <= op < 256 ->
    exists hi lo : Z,
      0 <= hi < 256 /\ 0 <= lo < 256
      /\ b = [0xFE; value self; hi; lo; 0x00;
              (value self + hi + lo + 0x00) mod 256]
      /\ List.last b 0 = checksum [value self; hi; lo; 0x00]
      /\ hi = 0 /\ lo = 0).
  { intros op -> -> Hop. exists 0, 0. rewrite checksum_sum. cbn [foldr].
    rewrite !Z.add_0_r, Z.mod_small by done. repeat split; lia. }
  assert (Hvalue : self = STIR \/ self = HEAT ->
    exists hi lo : Z,
      0 <= hi < 256 /\ 0 <= lo < 256
      /\ b = [0xFE; value self; hi; lo; 0x00;
              (value self + hi + lo + 0x00) mod 256]
      /\ List.last b 0 = checksum [value self; hi; lo; 0x00]
      /\ encoded_int self val = Ok (256 * hi + lo)).
  { intros Hself.
    assert (Hn : exists n, encoded_int self val = Ok n /\ encode_frame self n = Ok b).
    { destruct Hself as [-> | ->]; cbn [to_bytes] in Hb;
        destruct val; try discriminate;
        destruct (encoded_int _ _) as [v|] eqn:En; try discriminate;
        exists v; done. }
    destruct Hn as (n & -> & Hn). unfold encode_frame in Hn.
    destruct (0 <=? n) eqn:E0; [|discriminate].
    destruct (n <=? 65535) eqn:E1; [|discriminate].
    apply Z.leb_le in E0, E1. cbn [andb negb] in Hn.
    injection Hn as <-.
    rewrite !land_255, Z.shiftr_div_pow2 by done.
    exists (n / 2 ^ 8 mod 256), (n mod 256).
    rewrite !checksum_sum. cbn [foldr app List.last].
    change (2 ^ 8) with 256.
    assert (0 <= n / 256 < 256)
      by (split; [apply Z.div_pos; lia | apply Z.div_lt_upper_bound; lia]).
    rewrite (Z.mod_small (n / 256)) by done.
    pose proof (Z.mod_pos_bound n 256 eq_refl).
    pose proof (Z.div_mod n 256).
    repeat split; try lia.
    - by rewrite !Z.add_0_r, !Z.add_assoc.
    - f_equal. lia. }
  destruct self.
  - destruct (Hfixed 0xA0) as (hi & lo & ?); [by injection Hb as <-|done|lia|eauto 10].
  - destruct (Hfixed 0xA1) as (hi & lo & ?); [by injection Hb as <-|done|lia|eauto 10].
  - destruct (Hfixed 0xA2) as (hi & lo & ?); [by injection Hb as <-|done|lia|eauto 10].
  - destruct Hvalue as (hi & lo & ?); [by left|eauto 10].
  - destruct Hvalue as (hi & lo & ?); [by right|eauto 10].
  - destruct (Hfixed 0xB3) as (hi & lo & ?); [by injection Hb as <-|done|lia|eauto 10].
Qed.

Lemma to_bytes_frame_witness :
  exists value_hi value_lo : Z,
    0 <= value_hi < 256 /\ 0 <= value_lo < 256
    /\ [0xFE; 0xB1; 0x05; 0xDC; 0x00; 0x92]
       = [0xFE; value STIR; value_hi; value_lo; 0x00;
          (value STIR + value_hi + value_lo + 0x00) mod 256]
    /\ List.last [0xFE; 0xB1; 0x05; 0xDC; 0x00; 0x92] 0
       = checksum [value STIR; value_hi; value_lo; 0x00]
    /\ @encoded_int digit_parsers STIR (VInt 1500)
       = Ok (256 * value_hi + value_lo).
Proof.
  apply (proj2 (@to_bytes_frame digit_parsers STIR (VInt 1500))).
  reflexivity.
Defined.

(** [int(f)] truncates toward zero: it is the quotient, rounded toward
    zero, of the signed mantissa by the power of two of a negative
    exponent. *)
Lemma to_Z_truncates (s : bool) (m : positive) (e : Z) :
  Float.to_Z (S754_finite s m e)
  = Ok (Z.quot (cond_Zopp s (Z.pos m) * 2 ^ Z.max 0 e) (2 ^ Z.max 0 (- e))).
Proof.
  unfold Float.to_Z. f_equal. destruct e as [|p|p].
  - cbn [Z.max Z.opp Z.compare]. change (2 ^ 0) with 1.
    by rewrite Z.quot_1_r, !Z.mul_1_r.
  - rewrite Z.max_r, Z.max_l by lia. change (2 ^ 0) with 1.
    rewrite Z.quot_1_r. by destruct s; cbn [cond_Zopp]; lia.
  - rewrite Z.max_l, Z.max_r by lia. change (2 ^ 0) with 1.
    rewrite Z.mul_1_r. change (- Z.neg p) with (Z.pos p).
    assert (0 < 2 ^ Z.pos p) by (apply Z.pow_pos_nonneg; lia).
    destruct s; cbn [cond_Zopp].
    + rewrite Z.quot_opp_l by lia. f_equal.
      by rewrite Z.quot_div_nonneg by lia.
    + by rewrite Z.quot_div_nonneg by lia.
Qed.

(** C6, as the code has it: for STIR and HEAT, [to_bytes] raises
    [ValueError] exactly when no value is supplied, when the conversion of
    the value itself raises [ValueError] (a NaN float, an unparsable
    string), or when the encoded integer falls outside [0, 65535]. An
    integer STIR value is used as it is; a HEAT float is multiplied by 10
    and truncated toward zero, so that HEAT 200.0 carries 0x07D0. *)
Theorem to_bytes_value_error `{StrParsers} (self : COMMUNICATION) (val : PyVal) :
  self = STIR \/ self = HEAT ->
  ((exists msg, to_bytes self val = Raise (ValueError msg)) <->
     val = VNone
     \/ (exists msg, encoded_int self val = Raise (ValueError msg))
     \/ (exists n, encoded_int self val = Ok n /\ ~ 0 <= n <= 65535))
  /\ (forall n, encoded_int STIR (VInt n) = Ok n)
  /\ (forall f, encoded_int HEAT (VFloat f)
                = Float.to_Z (Float.mul f (Float.lit 10)))
  /\ (forall s m e,
        Float.to_Z (S754_finite s m e)
        = Ok (Z.quot (cond_Zopp s (Z.pos m) * 2 ^ Z.max 0 e)
                     (2 ^ Z.max 0 (- e))))
  /\ to_bytes HEAT (VFloat (Float.lit 200))
     = Ok [0xFE; 0xB2; 0x07; 0xD0; 0x00; 0x89].
Proof.
  intros Hself.
  split; [|split; [done|split; [done|split; [apply to_Z_truncates|done]]]].
  assert (Hto : to_bytes self val =
    match val with
    | VNone => Raise (ValueError PleaseSupplyValue)
    | _ => rbind (encoded_int self val) (encode_frame self)
    end) by (by destruct Hself as [-> | ->]).
  assert (Hframe : forall n,
    (exists msg, encode_frame self n = Raise (ValueError msg))
    <-> ~ 0 <= n <= 65535).
  { intros n. unfold encode_frame.
    destruct (0 <=? n) eqn:E0; destruct (n <=? 65535) eqn:E1;
      cbn [andb negb];
      try apply Z.leb_le in E0; try apply Z.leb_le in E1;
      try apply Z.leb_gt in E0; try apply Z.leb_gt in E1;
      (split; [intros [msg Hmsg]; try discriminate; lia
              |intros Hn; try lia; eauto]). }
  assert (Hval : val = VNone
                 \/ to_bytes self val
                    = rbind (encoded_int self val) (encode_frame self))
    by (rewrite Hto; destruct val; auto).
  split.
  - intros [msg Hmsg]. destruct Hval as [-> | Hval]; [by left|].
    right. rewrite Hval in Hmsg.
    destruct (encoded_int self val) as [n|e] eqn:En; cbn [rbind] in Hmsg.
    + right. exists n. split; [done|]. apply Hframe. by exists msg.
    + left. exists msg. by injection Hmsg as ->.
  - intros [-> | Hconv].
    { rewrite Hto. eauto. }
    destruct Hval as [-> | Hval]; [rewrite Hto; eauto|].
    rewrite Hval. destruct Hconv as [[msg Hmsg] | (n & Hn & Hrange)].
    + rewrite Hmsg. cbn [rbind]. eauto.
    + rewrite Hn. cbn [rbind]. by apply Hframe.
Qed.

Lemma to_bytes_value_error_witness :
  (exists msg, @to_bytes digit_parsers STIR (VInt 70000)
               = Raise (ValueError msg)).
Proof.
  apply (proj1 (@to_bytes_value_error digit_parsers STIR (VInt 70000)
                  (or_introl eq_refl))).
  right. right. exists 70000. split; [reflexivity | lia].
Defined.

(** C6 as the claim states it fails on a NaN: a value is supplied and
    there is no encoded integer at all, yet [to_bytes] raises
    [ValueError] (from [int]). *)
Lemma to_bytes_nan_counterexample :
  ~ ((exists msg, @to_bytes digit_parsers HEAT (VFloat S754_nan)
                  = Raise (ValueError msg)) <->
       VFloat S754_nan = VNone
       \/ (exists n, @encoded_int digit_parsers HEAT (VFloat S754_nan) = Ok n
                     /\ ~ 0 <= n <= 65535)).
Proof.
  intros [Hraise _].
  destruct Hraise as [Hnone | (n & Hn & _)].
  - exists FloatNaNToInteger. reflexivity.
  - discriminate Hnone.
  - discriminate Hn.
Qed.

(** The mode lookup ["_ABC"[d0]] on a byte: 1, 2, 3 are A, B, C, the
    placeholder at position 0 is returned for 0, and everything from 4 on
    is an [IndexError]. *)
Lemma str_at_ABC (d0 : Z) :
  0 <= d0 ->
  str_at "_ABC" d0 =
    if d0 =? 0 then Ok "_"%string
    else if d0 =? 1 then Ok "A"%string
    else if d0 =? 2 then Ok "B"%string
    else if d0 =? 3 then Ok "C"%string
    else Raise IndexError.
Proof.
  intros Hd0.
  destruct (Z.eq_dec d0 0) as [-> | ?]; [done|].
  destruct (Z.eq_dec d0 1) as [-> | ?]; [done|].
  destruct (Z.eq_dec d0 2) as [-> | ?]; [done|].
  destruct (Z.eq_dec d0 3) as [-> | ?]; [done|].
  repeat (destruct (d0 =? _) eqn:E; [apply Z.eqb_eq in E; lia | clear E]).
  unfold str_at, py_index.
  destruct (d0 <? 0) eqn:E; [apply Z.ltb_lt in E; lia | clear E].
  destruct (d0 <? 0) eqn:E; [apply Z.ltb_lt in E; lia | clear E].
  rewrite lookup_ge_None_2; [done|]. cbn. lia.
Qed.

(** The INFO decoding of the on/off flags and of the mode, for any
    well-formed INFO frame whose heat limit converts: the flags are true
    exactly for a zero byte, and the mode is the lookup of byte 0. *)
Lemma parse_response_info (d0 d1 d2 d3 d4 d5 : Z) (rest : bytes)
    (heat_limit : PyVal) :
  (2 <= length rest)%nat ->
  tenths (be16 d3 d4) = Ok heat_limit ->
  parse_response INFO
    (response_frame INFO (d0 :: d1 :: d2 :: d3 :: d4 :: d5 :: rest))
  = match str_at "_ABC" d0 with
    | Ok mode =>
        Ok (<["success" := VBool true]>
              (<["heat_alarm" := VBool (d5 =? 0)]>
                 (<["heat_limit" := heat_limit]>
                    (<["heat_on" := VBool (d2 =? 0)]>
                       (<["stir_on" := VBool (d1 =? 0)]>
                          (<["mode" := VStr mode]>
                             {["success" := VBool false]}))))))
    | Raise _ => Raise ResponseParseException
    end.
Proof.
  intros Hrest Hlimit.
  rewrite parse_response_frame by (cbn [length len_rx]; lia).
  unfold parse_info. cbn [py_index length].
  change (py_index (d0 :: d1 :: d2 :: d3 :: d4 :: d5 :: rest) 0) with (Ok d0).
  cbn [rbind]. destruct (str_at "_ABC" d0) as [mode|e]; [|done].
  cbn [rbind].
  change (py_index (d0 :: d1 :: d2 :: d3 :: d4 :: d5 :: rest) 1) with (Ok d1).
  change (py_index (d0 :: d1 :: d2 :: d3 :: d4 :: d5 :: rest) 2) with (Ok d2).
  change (py_index (d0 :: d1 :: d2 :: d3 :: d4 :: d5 :: rest) 3) with (Ok d3).
  change (py_index (d0 :: d1 :: d2 :: d3 :: d4 :: d5 :: rest) 4) with (Ok d4).
  change (py_index (d0 :: d1 :: d2 :: d3 :: d4 :: d5 :: rest) 5) with (Ok d5).
  cbn [rbind]. rewrite Hlimit. done.
Qed.

(** C2: on the INFO frame whose data byte 0 is 0 the decoder does not
    raise [ResponseParseException]: it returns a successful response whose
    mode is the placeholder ["_"], which is none of A, B, C. (Bytes 1, 2, 3
    give A, B, C, bytes from 4 on raise, and the flags are true exactly
    for a zero byte: see [str_at_ABC] and [parse_response_info].) *)
Theorem parse_response_info_mode_zero :
  exists response : gmap string PyVal,
    parse_response INFO
      [0xFD; 0xA1; 0x00; 0x00; 0x01; 0x0D; 0x48; 0x00; 0x00; 0x00; 0xF7]
    = Ok response
    /\ response !! "mode" = Some (VStr "_")
    /\ response !! "stir_on" = Some (VBool true)
    /\ response !! "heat_on" = Some (VBool false)
    /\ response !! "success" = Some (VBool true).
Proof.
  eexists. split.
  - change [0xFD; 0xA1; 0x00; 0x00; 0x01; 0x0D; 0x48; 0x00; 0x00; 0x00; 0xF7]
      with (response_frame INFO [0; 0; 1; 0x0D; 0x48; 0; 0; 0]).
    erewrite parse_response_info; [|cbn; lia|reflexivity].
    reflexivity.
  - repeat split; by vm_compute.
Qed.

(** ** The duplex connection *)

Section DuplexValue.
Import SerialThreadedDuplex.
Context {P : Type}.

(** C9: the [value] property checks, in this order: a stored exception is
    raised; else a reader that is still alive gives
    [ReadingNotCompleteException]; else no stored value (as on a
    connection on which no exchange has run) gives
    [NoCommunicationException]; else zero collected bytes give
    [NoDataException]; else the collected bytes are returned. *)
Theorem value_checks_in_order (self : Serial P) :
  (forall e, rx_exception self = Some e -> value self = Raise e)
  /\ (rx_exception self = None ->
      (exists t, rx_thread self = Some t /\ is_alive t = true) ->
      value self = Raise ReadingNotCompleteException)
  /\ (rx_exception self = None ->
      (rx_thread self = None
       \/ exists t, rx_thread self = Some t /\ is_alive t = false) ->
      (rx_value self = None ->
       value self = Raise NoCommunicationException)
      /\ (rx_value self = Some [] -> value self = Raise NoDataException)
      /\ (forall v, rx_value self = Some v -> v <> [] -> value self = Ok v))
  /\ (forall p : P, value (init p) = Raise NoCommunicationException).
Proof.
  unfold value, exception, thread_running.
  split; [by intros e ->|].
  split; [by intros -> (t & -> & ->)|].
  split; [|done].
  intros -> Hthread.
  assert (Hdone : match rx_thread self with
                  | Some t => is_alive t
                  | None => false
                  end = false)
    by (by destruct Hthread as [-> | (t & -> & ->)]).
  rewrite Hdone. split; [by intros ->|]. split; [by intros ->|].
  intros v -> Hv. by destruct v.
Qed.

End DuplexValue.

Lemma value_checks_in_order_witness :
  SerialThreadedDuplex.value
    {| SerialThreadedDuplex.port := tt;
       SerialThreadedDuplex.is_open := true;
       SerialThreadedDuplex.rx_thread :=
         Some {| SerialThreadedDuplex.is_alive := true |};
       SerialThreadedDuplex.rx_value := Some [];
       SerialThreadedDuplex.rx_exception := Some (SerialPortError 5);
       SerialThreadedDuplex.written := [] |}
  = Raise (SerialPortError 5).
Proof.
  apply (proj1 (value_checks_in_order _) (SerialPortError 5)).
  reflexivity.
Defined.

(** ** The sequencer *)

Section SequencerFacts.
Import SerialThreadedDuplex MSHPro.
Context {P : Type} `{Transport P} `{StrParsers}.

(** On a ready connection a command whose value encodes performs exactly
    one exchange, of the encoded frame. *)
Lemma command_on_ready (command : COMMUNICATION) (var : PyVal)
    (d : option dict) (s : Serial P) (frame : bytes) :
  ready s ->
  to_bytes command var = Ok frame ->
  exists s' received,
    __command command var d s = (s', decoded command d received)
    /\ written s' = written s ++ [frame]
    /\ ready s'.
Proof.
  intros [Hopen Hidle] Hframe.
  unfold __command, bind, serial_open, lift, write_with_read,
    __write_with_function.
  rewrite Hopen, Hframe, Hidle.
  destruct (port_exchange (port s) frame (len_rx command)) as [p' r].
  match goal with
  | |- context [value ?s1] => exists s1, (value s1)
  end.
  split; [|by split]. unfold decoded, ret.
  destruct (value _) as [r_bytes|e]; [|done]. cbn [rbind].
  by destruct (parse_response command r_bytes).
Qed.

(** A command that returns leaves the connection ready, and what it returns
    is the decoded reply merged into the dictionary it was given. *)
Lemma command_returns (command : COMMUNICATION) (var : PyVal)
    (d : option dict) (s s' : Serial P) (r : dict) :
  __command command var d s = (s', Ok r) ->
  ready s'
  /\ exists r_bytes parsed,
       parse_response command r_bytes = Ok parsed
       /\ r = parsed ∪ match d with None => ∅ | Some d => d end.
Proof.
  unfold __command, bind, serial_open, lift, write_with_read,
    __write_with_function, ret.
  intros Hrun.
  assert (Hopened : exists s0, ((if is_open s then (s, Ok tt) else open s)
                                = (s0, Ok tt) /\ is_open s0 = true)
                               /\ rx_thread s0 = rx_thread s).
  { destruct (is_open s) eqn:Eopen; [by exists s|].
    unfold open in *. destruct (port_open (port s)) as [p0 [[]|e]];
      [|done]. by eexists. }
  destruct Hopened as (s0 & [Hs0 Hopen0] & Hthread0).
  rewrite Hs0 in Hrun.
  destruct (to_bytes command var) as [frame|e]; [|done].
  destruct (thread_running s0) eqn:Eidle; [done|].
  destruct (port_exchange (port s0) frame (len_rx command)) as [p' received].
  match type of Hrun with
  | context [value ?s1] => destruct (value s1) as [r_bytes|e] eqn:Evalue
  end; [|done].
  destruct (parse_response command r_bytes) as [parsed|e] eqn:Eparse; [|done].
  injection Hrun as <- <-. split; [by split|]. by exists r_bytes, parsed.
Qed.

(** A reply that decodes for STIR, HEAT, PING or MODE is the success
    dictionary. *)
Lemma parse_response_ack_ok (command : COMMUNICATION) (b : bytes)
    (parsed : dict) :
  command <> INFO -> command <> STATUS ->
  parse_response command b = Ok parsed ->
  parsed = {["success" := VBool true]}.
Proof.
  intros Hinfo Hstatus. unfold parse_response.
  destruct (_ <? len_rx command); [done|].
  destruct (py_index b 0) as [b0|]; [|done].
  destruct (py_index b 1) as [b1|]; [|done].
  destruct (py_index b (-1)) as [b_last|]; [|done].
  cbn [rbind]. destruct (negb _); [done|].
  assert (Hack :
    parse_ack command (py_slice b 2 (-1)) {["success" := VBool false]}
    = Ok parsed -> parsed = {["success" := VBool true]}).
  { unfold parse_ack. rewrite insert_singleton_eq.
    repeat case_match; try done. by intros [= <-]. }
  by destruct command.
Qed.

(** A reply that decodes for INFO carries the mode and the three flags. *)
Lemma parse_response_info_ok (b : bytes) (parsed : dict) :
  parse_response INFO b = Ok parsed ->
  exists (mode : string) (stir_on heat_on heat_alarm : bool),
    parsed !! "mode" = Some (VStr mode)
    /\ parsed !! "stir_on" = Some (VBool stir_on)
    /\ parsed !! "heat_on" = Some (VBool heat_on)
    /\ parsed !! "heat_alarm" = Some (VBool heat_alarm).
Proof.
  unfold parse_response.
  destruct (_ <? len_rx INFO); [done|].
  destruct (py_index b 0) as [b0|]; [|done].
  destruct (py_index b 1) as [b1|]; [|done].
  destruct (py_index b (-1)) as [b_last|]; [|done].
  cbn [rbind]. destruct (negb _); [done|].
  unfold parse_info, or_parse_exception.
  destruct (py_index _ 0) as [d0|]; [|done]. cbn [rbind].
  destruct (str_at "_ABC" d0) as [mode|]; [|done]. cbn [rbind].
  destruct (py_index _ 1) as [d1|]; [|done]. cbn [rbind].
  destruct (py_index _ 2) as [d2|]; [|done]. cbn [rbind].
  destruct (py_index _ 3) as [d3|]; [|done]. cbn [rbind].
  destruct (py_index _ 4) as [d4|]; [|done]. cbn [rbind].
  destruct (tenths _) as [heat_limit|]; [|done]. cbn [rbind].
  destruct (py_index _ 5) as [d5|]; [|done]. cbn [rbind].
  intros [= <-]. exists mode, (d1 =? 0), (d2 =? 0), (d5 =? 0).
  repeat split; by simplify_map_eq.
Qed.

(** A successful raw status read leaves the connection ready, and the
    merged dictionary carries what INFO decoded. *)
Lemma status_raw_returns (s s' : Serial P) (r : dict) :
  status true s = (s', Ok r) ->
  ready s'
  /\ exists (mode : string) (stir_on heat_on heat_alarm : bool),
       r !! "mode" = Some (VStr mode)
       /\ r !! "stir_on" = Some (VBool stir_on)
       /\ r !! "heat_on" = Some (VBool heat_on)
       /\ r !! "heat_alarm" = Some (VBool heat_alarm).
Proof.
  unfold status, bind. cbn [negb].
  destruct (__command STATUS VNone None s) as [s0 [r0|e]] eqn:Estatus;
    [|done].
  destruct (__command INFO VNone (Some r0) s0) as [s1 [r1|e]] eqn:Einfo;
    [|done].
  unfold ret. intros [= <- <-].
  apply command_returns in Einfo
    as (Hready & r_bytes & parsed & Hparsed & ->).
  split; [done|].
  apply parse_response_info_ok in Hparsed
    as (mode & stir_on & heat_on & heat_alarm & Hm & Hs & Hh & Ha).
  exists mode, stir_on, heat_on, heat_alarm.
  repeat split; by apply lookup_union_Some_l.
Qed.

(** C10: the normalized status view ([raw_values] false) is the raw merged
    STATUS+INFO dictionary in which [heat_set] and [stir_set] are replaced
    by ["Off"] exactly when the corresponding [_on] flag is false; every
    other key, [heat_alarm] included, keeps its raw value. *)
Theorem status_normalized (s s' : Serial P) (r : dict) :
  status true s = (s', Ok r) ->
  exists (heat_on stir_on heat_alarm : bool) (r' : dict),
    r !! "heat_on" = Some (VBool heat_on)
    /\ r !! "stir_on" = Some (VBool stir_on)
    /\ r !! "heat_alarm" = Some (VBool heat_alarm)
    /\ status false s = (s', Ok r')
    /\ r' !! "heat_set"
       = (if heat_on then r !! "heat_set" else Some (VStr "Off"))
    /\ r' !! "stir_set"
       = (if stir_on then r !! "stir_set" else Some (VStr "Off"))
    /\ r' !! "heat_alarm" = Some (VBool heat_alarm)
    /\ forall key : string,
         key <> "heat_set"%string -> key <> "stir_set"%string ->
         r' !! key = r !! key.
Proof.
  intros Hraw.
  destruct (status_raw_returns _ _ _ Hraw)
    as (_ & mode & stir_on & heat_on & heat_alarm & _ & Hs & Hh & Ha).
  revert Hraw. unfold status, bind. cbn [negb].
  destruct (__command STATUS VNone None s) as [s0 [r0|e]]; [|done].
  destruct (__command INFO VNone (Some r0) s0) as [s1 [r1|e]]; [|done].
  unfold ret, lift, dict_get. intros [= <- <-].
  rewrite Hh. cbn [truthy].
  exists heat_on, stir_on, heat_alarm.
  set (r2 := if negb heat_on then <["heat_set" := VStr "Off"]> r1 else r1).
  assert (Hr2 : forall key : string,
             key <> "heat_set"%string -> r2 !! key = r1 !! key).
  { intros key Hkey. subst r2. destruct heat_on; cbn [negb]; [done|].
    by rewrite lookup_insert_ne. }
  rewrite (Hr2 "stir_on"), Hs by done. cbn [truthy].
  set (r3 := if negb stir_on then <["stir_set" := VStr "Off"]> r2 else r2).
  assert (Hr3 : forall key : string,
             key <> "stir_set"%string -> r3 !! key = r2 !! key).
  { intros key Hkey. subst r3. destruct stir_on; cbn [negb]; [done|].
    by rewrite lookup_insert_ne. }
  rewrite (Hr3 "heat_alarm"), (Hr2 "heat_alarm"), Ha by done.
  exists r3. repeat split; try done.
  - rewrite Hr3 by done. subst r2. destruct heat_on; cbn [negb]; [done|].
    by rewrite lookup_insert_eq.
  - subst r3. destruct stir_on; cbn [negb]; [by rewrite Hr2|].
    by rewrite lookup_insert_eq.
  - by rewrite Hr3, Hr2.
  - intros key Hheat Hstir. by rewrite Hr3, Hr2.
Qed.

Lemma bind_run {A B} (m : IO A) (k : A -> IO B) (s : Serial P) :
  bind m k s = match m s with
               | (s', Ok a) => k a s'
               | (s', Raise e) => (s', Raise e)
               end.
Proof. reflexivity. Qed.

Lemma bind_lift_Ok {A B} (a : A) (k : A -> IO B) (s : Serial P) :
  bind (lift (Ok a)) k s = k a s.
Proof. reflexivity. Qed.

(** An acknowledged command reports success. *)
Lemma command_success (command : COMMUNICATION) (var : PyVal)
    (s s' : Serial P) (r : dict) :
  command <> INFO -> command <> STATUS ->
  __command command var None s = (s', Ok r) ->
  dict_get r "success" = Ok (VBool true).
Proof.
  intros Hinfo Hstatus Hrun.
  apply command_returns in Hrun as (_ & r_bytes & parsed & Hparsed & ->).
  apply parse_response_ack_ok in Hparsed as ->; [|done..].
  unfold dict_get. by rewrite lookup_union_l', lookup_singleton_eq.
Qed.

(** Sending a value and testing the ["success"] entry of the reply, as
    [__setval] does: one exchange of the frame; [True] when the command
    returns. *)
Lemma send_and_test (command : COMMUNICATION) (var : PyVal)
    (s : Serial P) (frame : bytes) :
  command = STIR \/ command = HEAT ->
  ready s ->
  to_bytes command var = Ok frame ->
  exists s' r,
    __command command var None s = (s', r)
    /\ written s' = written s ++ [frame]
    /\ ready s'
    /\ forall k : PyVal -> IO bool,
         bind (__command command var None)
           (fun r => bind (lift (dict_get r "success")) k) s
         = match r with
           | Ok _ => k (VBool true) s'
           | Raise e => (s', Raise e)
           end.
Proof.
  intros Hcommand Hready Hframe.
  destruct (command_on_ready command var None s frame Hready Hframe)
    as (s' & received & Hrun & Hwritten & Hready').
  exists s', (decoded command None received).
  split; [done|split; [done|split; [done|]]].
  intros k. rewrite bind_run, Hrun.
  destruct (decoded command None received) as [r|e] eqn:Er; [|done].
  rewrite <- Er in Hrun. rewrite Er in Hrun.
  apply command_success in Hrun as ->; [done|..];
    by destruct Hcommand as [-> | ->].
Qed.

(** C1: once [__setval] has read the raw [(set_value, on_status)] of the
    channel, it issues: no set command and reports success when the target
    equals [set_value] and the channel is on; exactly one set command when
    the target equals [set_value] and the channel is off; exactly one when
    the target differs and the channel is off; and, when the target
    differs and the channel is on, the target twice, unless the first
    transaction fails, in which case it stops after that one. (An absent
    target stands for [set_value].) *)
Theorem setval_transactions (command : COMMUNICATION) (val : PyVal)
    (s s1 : Serial P) (current_status : dict)
    (set_value on_status : PyVal) :
  command = STIR \/ command = HEAT ->
  status true s = (s1, Ok current_status) ->
  current_status !! (name_lower command +:+ "_set") = Some set_value ->
  current_status !! (name_lower command +:+ "_on") = Some on_status ->
  let target := match val with VNone => set_value | _ => val end in
  (py_eq set_value target = true -> truthy on_status = true ->
   __setval command val s = (s1, Ok true))
  /\ (py_eq set_value target = true -> truthy on_status = false ->
      forall frame, to_bytes command set_value = Ok frame ->
      exists s2 r,
        __command command set_value None s1 = (s2, r)
        /\ written s2 = written s1 ++ [frame]
        /\ __setval command val s
           = (s2, match r with Ok _ => Ok true | Raise e => Raise e end))
  /\ (py_eq set_value target = false -> truthy on_status = false ->
      forall frame, to_bytes command target = Ok frame ->
      exists s2 r,
        __command command target None s1 = (s2, r)
        /\ written s2 = written s1 ++ [frame]
        /\ __setval command val s
           = (s2, match r with Ok _ => Ok true | Raise e => Raise e end))
  /\ (py_eq set_value target = false -> truthy on_status = true ->
      forall frame, to_bytes command target = Ok frame ->
      exists s2 r,
        __command command target None s1 = (s2, r)
        /\ written s2 = written s1 ++ [frame]
        /\ match r with
           | Raise e => __setval command val s = (s2, Raise e)
           | Ok _ =>
               exists s3 r',
                 __command command target None s2 = (s3, r')
                 /\ written s3 = written s1 ++ [frame; frame]
                 /\ __setval command val s
                    = (s3, match r' with
                           | Ok _ => Ok true
                           | Raise e => Raise e
                           end)
           end).
Proof.
  intros Hcommand Hstatus Hset Hon target.
  destruct (status_raw_returns _ _ _ Hstatus) as [Hready _].
  assert (Hbody : __setval command val s =
    (if py_eq set_value target then
       if truthy on_status then ret true
       else
         bind (__command command set_value None) (fun r =>
           bind (lift (dict_get r "success")) (fun success =>
             ret (truthy success)))
     else
       bind (__command command target None) (fun r =>
         bind (lift (dict_get r "success")) (fun success =>
           if negb (truthy success) then ret false
           else if negb (truthy on_status) then ret true
           else
             bind (__command command target None) (fun r =>
               bind (lift (dict_get r "success")) (fun success =>
                 ret (truthy success)))))) s1).
  { unfold __setval. rewrite bind_run, Hstatus.
    unfold dict_get at 1. rewrite Hset, bind_lift_Ok.
    unfold dict_get at 1. rewrite Hon, bind_lift_Ok. done. }
  rewrite Hbody. clear Hbody. repeat split.
  - intros -> ->. done.
  - intros -> -> frame Hframe.
    destruct (send_and_test command set_value s1 frame Hcommand Hready Hframe)
      as (s2 & r & Hrun & Hwritten & _ & Hsent).
    exists s2, r. rewrite Hsent. by destruct r.
  - intros -> Hoff frame Hframe.
    destruct (send_and_test command target s1 frame Hcommand Hready Hframe)
      as (s2 & r & Hrun & Hwritten & _ & Hsent).
    exists s2, r. rewrite Hsent, Hoff. by destruct r.
  - intros -> Hwas_on frame Hframe.
    destruct (send_and_test command target s1 frame Hcommand Hready Hframe)
      as (s2 & r & Hrun & Hwritten & Hready2 & Hsent).
    exists s2, r. rewrite Hsent, Hwas_on. split; [done|split; [done|]].
    destruct r as [r|e]; [|done]. cbn [truthy negb].
    destruct (send_and_test command target s2 frame Hcommand Hready2 Hframe)
      as (s3 & r' & Hrun' & Hwritten' & _ & Hsent').
    exists s3, r'. rewrite Hsent', Hwritten', Hwritten, <- app_assoc.
    by destruct r'.
Qed.

(** A command that returns has written its frame, once. *)
Lemma command_returns_written (command : COMMUNICATION) (var : PyVal)
    (d : option dict) (s s' : Serial P) (r : dict) :
  __command command var d s = (s', Ok r) ->
  exists frame,
    to_bytes command var = Ok frame /\ written s' = written s ++ [frame].
Proof.
  unfold __command, bind, serial_open, lift, write_with_read,
    __write_with_function, ret.
  intros Hrun.
  assert (Hopened : exists s0, (if is_open s then (s, Ok tt) else open s)
                               = (s0, Ok tt)
                               /\ written s0 = written s).
  { destruct (is_open s) eqn:Eopen; [by exists s|].
    unfold open in *. destruct (port_open (port s)) as [p0 [[]|e]];
      [|done]. by eexists. }
  destruct Hopened as (s0 & Hs0 & Hwritten0).
  rewrite Hs0 in Hrun.
  destruct (to_bytes command var) as [frame|e]; [|done].
  destruct (thread_running s0) eqn:Eidle; [done|].
  destruct (port_exchange (port s0) frame (len_rx command)) as [p' received].
  match type of Hrun with
  | context [value ?s1] => destruct (value s1) as [r_bytes|e] eqn:Evalue
  end; [|done].
  destruct (parse_response command r_bytes) as [parsed|e]; [|done].
  injection Hrun as <- <-. exists frame. by rewrite <- Hwritten0.
Qed.

(** The loop of [mode]: cycle commands are issued one after another until
    the count is reached or one of them fails. *)
Lemma cycle_mode_issues (n : nat) (s : Serial P) :
  ready s ->
  exists issued : nat,
    (issued <= n)%nat
    /\ written (cycle_mode n s).1
       = written s ++ replicate issued [0xFE; 0xB3; 0x00; 0x00; 0x00; 0xB3]
    /\ (is_ok (cycle_mode n s).2 = true -> issued = n).
Proof.
  revert s. induction n as [|n IH]; intros s Hready.
  - exists 0%nat. cbn. by rewrite app_nil_r.
  - cbn [cycle_mode]. rewrite bind_run.
    destruct (command_on_ready _MODE VNone None s _ Hready eq_refl)
      as (s' & received & -> & Hwritten & Hready').
    destruct (decoded _MODE None received) as [r|e].
    + destruct (IH s' Hready') as (issued & Hle & Hissued & Hall).
      exists (S issued). rewrite Hissued, Hwritten, <- app_assoc.
      split; [lia|]. split; [done|]. intros Hok. by rewrite Hall.
    + exists 1%nat. cbn [fst snd is_ok]. split; [lia|]. by split.
Qed.

(** C8: [mode] reads the current mode with one INFO exchange and then
    issues cycle commands only: [(3 + targetIndex - currentIndex) mod 3]
    of them when it returns (after a cycle command that fails it stops,
    having issued fewer). When the current mode equals the target nothing
    is issued after the INFO exchange; from A to C the count is two. *)
Theorem mode_cycles (target : string) (s s1 : Serial P) (info : dict)
    (current : string) (target_index current_index : Z) :
  str_index "ABC" target = Ok target_index ->
  _info s = (s1, Ok info) ->
  info !! "mode" = Some (VStr current) ->
  str_index "ABC" current = Ok current_index ->
  let steps := Z.to_nat ((3 + target_index - current_index) mod 3) in
  written s1 = written s ++ [[0xFE; 0xA1; 0x00; 0x00; 0x00; 0xA1]]
  /\ mode target s = cycle_mode steps s1
  /\ (exists issued : nat,
        (issued <= steps)%nat
        /\ written (mode target s).1
           = written s1
             ++ replicate issued [0xFE; 0xB3; 0x00; 0x00; 0x00; 0xB3]
        /\ (is_ok (mode target s).2 = true -> issued = steps))
  /\ (target_index = current_index -> mode target s = (s1, Ok tt))
  /\ (current = "A"%string -> target = "C"%string -> steps = 2%nat).
Proof.
  intros Htarget Hinfo Hmode Hcurrent steps.
  assert (Hrun : mode target s = cycle_mode steps s1).
  { unfold mode. rewrite Htarget, bind_lift_Ok, bind_run, Hinfo.
    unfold dict_get. by rewrite Hmode, bind_lift_Ok, Hcurrent, bind_lift_Ok. }
  unfold _info in Hinfo.
  destruct (command_returns_written _ _ _ _ _ _ Hinfo)
    as (frame & [= <-] & Hwritten).
  apply command_returns in Hinfo as [Hready _].
  split; [done|]. split; [done|]. rewrite Hrun.
  split; [by apply cycle_mode_issues|]. split.
  - intros ->. subst steps.
    by replace (3 + current_index - current_index) with 3 by lia.
  - intros -> ->. injection Htarget as <-. injection Hcurrent as <-. done.
Qed.

(** A command writes its frame once, or nothing at all. *)
Lemma command_written (command : COMMUNICATION) (var : PyVal)
    (d : option dict) (s : Serial P) :
  written (__command command var d s).1 = written s
  \/ exists frame,
       to_bytes command var = Ok frame
       /\ written (__command command var d s).1 = written s ++ [frame].
Proof.
  unfold __command, bind, serial_open, lift, write_with_read,
    __write_with_function, ret.
  assert (Hopened : exists s0 r0, (if is_open s then (s, Ok tt) else open s)
                                  = (s0, r0)
                                  /\ written s0 = written s).
  { destruct (is_open s) eqn:Eopen; [by exists s, (Ok tt)|].
    unfold open. destruct (port_open (port s)) as [p0 r0]. by eexists _, r0. }
  destruct Hopened as (s0 & r0 & -> & Hwritten0).
  destruct r0 as [[]|e]; [|by left].
  destruct (to_bytes command var) as [frame|e]; [|by left].
  destruct (thread_running s0) eqn:Eidle; [by left|].
  destruct (port_exchange (port s0) frame (len_rx command)) as [p' received].
  right. exists frame. split; [done|].
  match goal with
  | |- context [value ?s1] => destruct (value s1) as [r_bytes|e]
  end; [|by rewrite <- Hwritten0].
  destruct (parse_response command r_bytes); by rewrite <- Hwritten0.
Qed.

(** The status read leaves the connection as the raw read does; the
    normalization is a computation on the dictionary. *)
Lemma status_state (raw_values : bool) (s : Serial P) :
  (status raw_values s).1 = (status true s).1.
Proof.
  unfold status. rewrite !bind_run.
  destruct (__command STATUS VNone None s) as [s0 [r0|e]]; [|done].
  rewrite !bind_run.
  destruct (__command INFO VNone (Some r0) s0) as [s1 [r1|e]]; [|done].
  destruct raw_values; [done|]. cbn [negb].
  unfold bind, lift, ret.
  destruct (dict_get r1 "heat_on"); [|done].
  destruct (dict_get _ "stir_on"); [|done].
  by destruct (dict_get _ "heat_alarm").
Qed.




End SequencerFacts.

(** * Further properties of the code *)

(** ** The frame codec: format check and decoded fields *)

Lemma or_parse_exception_raises {A} (r : result A) (e : Exn) :
  or_parse_exception r = Raise e -> e = ResponseParseException.
Proof. destruct r; [done|]. by intros [= <-]. Qed.

Lemma parse_ack_raises (self : COMMUNICATION) (data : bytes)
    (response : gmap string PyVal) (e : Exn) :
  parse_ack self data response = Raise e ->
  e = HotplateException \/ e = ResponseParseException.
Proof.
  unfold parse_ack. repeat case_match; try done; intros [= <-]; auto.
Qed.

(** The decoding of a reply that is long enough, with its first two bytes
    and its last byte set apart. *)
Lemma parse_response_checked (self : COMMUNICATION) (b0 b1 c : Z)
    (data : bytes) :
  len_rx self - 3 <= Z.of_nat (length data) ->
  parse_response self (b0 :: b1 :: data ++ [c]) =
    if negb ((b0 =? 0xFD) && (b1 =? value self)
             && (c =? checksum (b1 :: data)))
    then Raise ResponseFormatException
    else match self with
         | INFO => parse_info data {["success" := VBool false]}
         | STATUS => parse_status data {["success" := VBool false]}
         | _ => parse_ack self data {["success" := VBool false]}
         end.
Proof.
  intros Hlen. unfold parse_response.
  destruct (_ <? len_rx self) eqn:E.
  { apply Z.ltb_lt in E. cbn [length] in E. rewrite length_app in E.
    cbn [length] in E. lia. }
  rewrite py_index_last, py_slice_summed, py_slice_data.
  change (py_index (b0 :: b1 :: data ++ [c]) 0) with (Ok b0).
  change (py_index (b0 :: b1 :: data ++ [c]) 1) with (Ok b1).
  cbn [rbind]. destruct (negb _); [done|]. by destruct self.
Qed.

Lemma decode_not_format (self : COMMUNICATION) (data : bytes) :
  match self with
  | INFO => parse_info data {["success" := VBool false]}
  | STATUS => parse_status data {["success" := VBool false]}
  | _ => parse_ack self data {["success" := VBool false]}
  end <> Raise ResponseFormatException.
Proof.
  intros Hformat.
  destruct self;
    try (apply parse_ack_raises in Hformat as [?|?]; discriminate);
    unfold parse_info, parse_status in Hformat;
    by apply or_parse_exception_raises in Hformat.
Qed.

(** X1: A reply that is long enough is rejected with [ResponseFormatException]
    exactly when its first byte is not the marker 0xFD, its second byte is
    not the opcode of the command, or its last byte is not the checksum of
    the bytes in between. *)
Theorem parse_response_format (self : COMMUNICATION) (b0 b1 c : Z)
    (data : bytes) :
  len_rx self - 3 <= Z.of_nat (length data) ->
  parse_response self (b0 :: b1 :: data ++ [c]) = Raise ResponseFormatException
  <-> (b0 <> 0xFD \/ b1 <> value self \/ c <> checksum (b1 :: data)).
Proof.
  intros Hlen. rewrite parse_response_checked by done.
  destruct (b0 =? 0xFD) eqn:E0; [apply Z.eqb_eq in E0|apply Z.eqb_neq in E0];
    [|by split; auto].
  destruct (b1 =? value self) eqn:E1;
    [apply Z.eqb_eq in E1|apply Z.eqb_neq in E1]; [|by split; auto].
  destruct (c =? checksum (b1 :: data)) eqn:E2;
    [apply Z.eqb_eq in E2|apply Z.eqb_neq in E2]; [|by split; auto].
  cbn [andb negb]. split; [|tauto]. intros Hformat.
  by apply decode_not_format in Hformat.
Qed.

Lemma parse_response_format_witness :
  parse_response PING [0xFD; 0xA0; 0x00; 0x00; 0x00; 0xA1]
  = Raise ResponseFormatException.
Proof.
  apply (parse_response_format PING 0xFD 0xA0 0xA1 [0; 0; 0]).
  - cbn. lia.
  - right. right. by vm_compute.
Defined.

(** A reply that decodes for STATUS carries the four readings. *)
Lemma parse_response_status_ok (b : bytes) (parsed : gmap string PyVal) :
  parse_response STATUS b = Ok parsed ->
  exists (stir_set stir_actual : Z) (heat_set heat_actual : float),
    parsed !! "stir_set" = Some (VInt stir_set)
    /\ parsed !! "stir_actual" = Some (VInt stir_actual)
    /\ parsed !! "heat_set" = Some (VFloat heat_set)
    /\ parsed !! "heat_actual" = Some (VFloat heat_actual)
    /\ parsed !! "success" = Some (VBool true).
Proof.
  unfold parse_response.
  destruct (_ <? len_rx STATUS); [done|].
  destruct (py_index b 0) as [b0|]; [|done].
  destruct (py_index b 1) as [b1|]; [|done].
  destruct (py_index b (-1)) as [b_last|]; [|done].
  cbn [rbind]. destruct (negb _); [done|].
  unfold parse_status, or_parse_exception, tenths.
  destruct (py_index _ 0) as [d0|]; [|done]. cbn [rbind].
  destruct (py_index _ 1) as [d1|]; [|done]. cbn [rbind].
  destruct (py_index _ 2) as [d2|]; [|done]. cbn [rbind].
  destruct (py_index _ 3) as [d3|]; [|done]. cbn [rbind].
  destruct (py_index _ 4) as [d4|]; [|done]. cbn [rbind].
  destruct (py_index _ 5) as [d5|]; [|done]. cbn [rbind].
  destruct (Float.of_Z (be16 d4 d5)) as [heat_set|]; [|done]. cbn [rbind].
  destruct (py_index _ 6) as [d6|]; [|done]. cbn [rbind].
  destruct (py_index _ 7) as [d7|]; [|done]. cbn [rbind].
  destruct (Float.of_Z (be16 d6 d7)) as [heat_actual|]; [|done].
  cbn [rbind]. intros [= <-]. eexists _, _, _, _.
  repeat split; by simplify_map_eq.
Qed.

(** X2: Whatever [parse_response] returns reports success: the initial
    ["success": False] never leaves the function, which either sets it to
    [True] or raises. *)
Theorem parse_response_success (self : COMMUNICATION) (b : bytes)
    (response : gmap string PyVal) :
  parse_response self b = Ok response ->
  response !! "success" = Some (VBool true).
Proof.
  intros Hparse. destruct self.
  1, 4, 5, 6: by apply parse_response_ack_ok in Hparse as ->.
  - revert Hparse. unfold parse_response.
    destruct (_ <? len_rx INFO); [done|].
    destruct (py_index b 0) as [b0|]; [|done].
    destruct (py_index b 1) as [b1|]; [|done].
    destruct (py_index b (-1)) as [b_last|]; [|done].
    cbn [rbind]. destruct (negb _); [done|].
    unfold parse_info, or_parse_exception.
    destruct (py_index _ 0) as [d0|]; [|done]. cbn [rbind].
    destruct (str_at "_ABC" d0) as [mode|]; [|done]. cbn [rbind].
    destruct (py_index _ 1) as [d1|]; [|done]. cbn [rbind].
    destruct (py_index _ 2) as [d2|]; [|done]. cbn [rbind].
    destruct (py_index _ 3) as [d3|]; [|done]. cbn [rbind].
    destruct (py_index _ 4) as [d4|]; [|done]. cbn [rbind].
    destruct (tenths _) as [heat_limit|]; [|done]. cbn [rbind].
    destruct (py_index _ 5) as [d5|]; [|done]. cbn [rbind].
    intros [= <-]. by simplify_map_eq.
  - by apply parse_response_status_ok in Hparse as (? & ? & ? & ? & ? & ? & ? & ? & ?).
Qed.

Lemma parse_response_success_witness :
  ({["success" := VBool true]} : gmap string PyVal) !! "success"
  = Some (VBool true).
Proof.
  apply (parse_response_success STIR [0xFD; 0xB1; 0x00; 0x00; 0x00; 0xB1]).
  vm_compute; reflexivity.
Defined.

(** ** The checksum *)

Lemma checksum_range (val : bytes) : 0 <= checksum val < 256.
Proof.
  rewrite checksum_sum. by apply Z.mod_pos_bound.
Qed.

Lemma foldr_add_app (a b : bytes) :
  foldr Z.add 0 (a ++ b) = foldr Z.add 0 a + foldr Z.add 0 b.
Proof. induction a as [|x a IH]; cbn [foldr app]; lia. Qed.

(** X4: The checksum is one byte, and the checksum of a concatenation is the
    sum of the two checksums modulo 256. *)
Theorem checksum_app (a b : bytes) :
  0 <= checksum (a ++ b) < 256
  /\ checksum (a ++ b) = (checksum a + checksum b) mod 256.
Proof.
  split; [apply checksum_range|].
  rewrite !checksum_sum, foldr_add_app. by rewrite <- Z.add_mod.
Qed.

(** X5: The checksum does not see the order of the bytes: two byte strings
    that are permutations of each other have the same checksum. *)
Theorem checksum_permutation (a b : bytes) :
  a ≡ₚ b -> checksum a = checksum b.
Proof.
  intros Hperm. rewrite !checksum_sum. f_equal.
  induction Hperm as [|x a b _ IH|x y a|a b c _ IHab _ IHbc];
    cbn [foldr]; lia.
Qed.

Lemma checksum_permutation_witness :
  checksum [0xA2; 0x01; 0xF4; 0x00] = checksum [0xA2; 0x00; 0x01; 0xF4].
Proof.
  apply checksum_permutation.
  change [0xA2; 0x01; 0xF4; 0x00] with ([0xA2] ++ [0x01; 0xF4] ++ [0x00]).
  change [0xA2; 0x00; 0x01; 0xF4] with ([0xA2] ++ [0x00] ++ [0x01; 0xF4]).
  apply Permutation_app_head, Permutation_app_comm.
Defined.

(** Replacing one byte of a byte string by a different byte changes the
    checksum. *)
Lemma checksum_differs (a b : bytes) (x y : Z) :
  0 <= x < 256 -> 0 <= y < 256 -> x <> y ->
  checksum (a ++ x :: b) <> checksum (a ++ y :: b).
Proof.
  intros Hx Hy Hxy. rewrite !checksum_sum, !foldr_add_app. cbn [foldr].
  set (sa := foldr Z.add 0 a). set (sb := foldr Z.add 0 b).
  intros Heq.
  assert (Hdiff : (x - y) mod 256 = 0).
  { replace (x - y) with ((sa + (x + sb)) - (sa + (y + sb))) by lia.
    rewrite Zminus_mod, Heq, Z.sub_diag. done. }
  apply Z.mod_divide in Hdiff; [|done].
  destruct Hdiff as [k Hk]. lia.
Qed.

(** X3: A one-byte corruption of the data of a reply is always caught: if one
    data byte of a well-formed reply is replaced by a different byte, the
    reply is rejected with [ResponseFormatException]. *)
Theorem parse_response_corrupted (self : COMMUNICATION)
    (before after : bytes) (x y : Z) :
  len_rx self - 3 <= Z.of_nat (length (before ++ x :: after)) ->
  0 <= x < 256 -> 0 <= y < 256 -> x <> y ->
  parse_response self
    (0xFD :: value self :: (before ++ y :: after)
       ++ [checksum (value self :: before ++ x :: after)])
  = Raise ResponseFormatException.
Proof.
  intros Hlen Hx Hy Hxy.
  rewrite parse_response_checked
    by (rewrite length_app in *; cbn [length] in *; lia).
  rewrite !Z.eqb_refl. cbn [andb].
  destruct (_ =? _) eqn:E; [|done]. apply Z.eqb_eq in E.
  by apply (checksum_differs (value self :: before) after x y) in E.
Qed.

Lemma parse_response_corrupted_witness :
  parse_response STIR [0xFD; 0xB1; 0x00; 0x01; 0x00; 0xB1]
  = Raise ResponseFormatException.
Proof.
  apply (parse_response_corrupted STIR [0] [0] 0 1); cbn; lia.
Defined.

(** ** Round trips between requests and readings *)

Lemma be16_value (hi lo : Z) : be16 hi lo = 256 * hi + lo.
Proof. unfold be16. rewrite Z.shiftl_mul_pow2 by done. lia. Qed.

(** The STATUS decoding of a well-formed frame with at least eight data
    bytes. *)
Lemma parse_response_status (d0 d1 d2 d3 d4 d5 d6 d7 : Z) (rest : bytes) :
  parse_response STATUS
    (response_frame STATUS (d0 :: d1 :: d2 :: d3 :: d4 :: d5 :: d6 :: d7 :: rest))
  = match tenths (be16 d4 d5), tenths (be16 d6 d7) with
    | Ok heat_set, Ok heat_actual =>
        Ok (<["success" := VBool true]>
              (<["heat_actual" := heat_actual]>
                 (<["heat_set" := heat_set]>
                    (<["stir_actual" := VInt (be16 d2 d3)]>
                       (<["stir_set" := VInt (be16 d0 d1)]>
                          {["success" := VBool false]})))))
    | _, _ => Raise ResponseParseException
    end.
Proof.
  rewrite parse_response_frame by (cbn [length len_rx]; lia).
  unfold parse_status.
  set (data := d0 :: d1 :: d2 :: d3 :: d4 :: d5 :: d6 :: d7 :: rest).
  change (py_index data 0) with (Ok d0).
  change (py_index data 1) with (Ok d1).
  change (py_index data 2) with (Ok d2).
  change (py_index data 3) with (Ok d3).
  change (py_index data 4) with (Ok d4).
  change (py_index data 5) with (Ok d5).
  change (py_index data 6) with (Ok d6).
  change (py_index data 7) with (Ok d7).
  cbn [rbind].
  destruct (tenths (be16 d4 d5)) as [heat_set|]; [|done]. cbn [rbind].
  by destruct (tenths (be16 d6 d7)).
Qed.

(** X6: STATUS readings are big-endian pairs of data bytes: whenever a
    well-formed STATUS frame decodes, the two speeds are [256 * hi + lo]
    of bytes 0-1 and 2-3, the two temperatures are that integer of bytes
    4-5 and 6-7 divided by 10.0, and data bytes after the eighth play no
    role. *)
Theorem parse_response_status_fields (d0 d1 d2 d3 d4 d5 d6 d7 : Z)
    (rest : bytes) (response : gmap string PyVal) :
  parse_response STATUS
    (response_frame STATUS (d0 :: d1 :: d2 :: d3 :: d4 :: d5 :: d6 :: d7 :: rest))
  = Ok response ->
  response !! "stir_set" = Some (VInt (256 * d0 + d1))
  /\ response !! "stir_actual" = Some (VInt (256 * d2 + d3))
  /\ (exists heat_set heat_actual,
        tenths (256 * d4 + d5) = Ok heat_set
        /\ tenths (256 * d6 + d7) = Ok heat_actual
        /\ response !! "heat_set" = Some heat_set
        /\ response !! "heat_actual" = Some heat_actual).
Proof.
  rewrite parse_response_status, <- !be16_value.
  destruct (tenths (be16 d4 d5)) as [heat_set|]; [|done].
  destruct (tenths (be16 d6 d7)) as [heat_actual|]; [|done].
  intros [= <-]. split; [by simplify_map_eq|]. split; [by simplify_map_eq|].
  exists heat_set, heat_actual. repeat split; by simplify_map_eq.
Qed.

Lemma parse_response_status_fields_witness :
  let frame := response_frame STATUS [0x01; 0xF4; 0; 0; 0x07; 0xD0; 0; 0xD7] in
  let response :=
    match parse_response STATUS frame with Ok d => d | Raise _ => ∅ end in
  response !! "stir_set" = Some (VInt (256 * 0x01 + 0xF4)).
Proof.
  intros frame response.
  assert (Hparse : parse_response STATUS frame = Ok response)
    by (vm_compute; reflexivity).
  exact (proj1 (parse_response_status_fields
                  0x01 0xF4 0 0 0x07 0xD0 0 0xD7 [] response Hparse)).
Defined.

Section RoundTrips.
Context `{StrParsers}.

(** X7: An integer STIR value is encodable exactly when it is in [0, 65535],
    and the device that reports the two value bytes of the request as its
    [stir_set] reading gives the value back: decoding undoes encoding. *)
Theorem stir_round_trip (n : Z) :
  (is_ok (to_bytes STIR (VInt n)) = true <-> 0 <= n <= 65535)
  /\ forall (b : bytes) (hi lo : Z) (d2 d3 d4 d5 d6 d7 : Z)
       (response : gmap string PyVal),
       to_bytes STIR (VInt n) = Ok b ->
       py_index b 2 = Ok hi -> py_index b 3 = Ok lo ->
       parse_response STATUS
         (response_frame STATUS [hi; lo; d2; d3; d4; d5; d6; d7])
       = Ok response ->
       response !! "stir_set" = Some (VInt n).
Proof.
  assert (Hencode : to_bytes STIR (VInt n) = encode_frame STIR n) by done.
  rewrite Hencode. unfold encode_frame.
  destruct (0 <=? n) eqn:E0; [apply Z.leb_le in E0|apply Z.leb_gt in E0];
    [|split; [split; [done|lia]|done]].
  destruct (n <=? 65535) eqn:E1; [apply Z.leb_le in E1|apply Z.leb_gt in E1];
    [|split; [split; [done|lia]|done]].
  cbn [andb negb is_ok]. split; [done|].
  intros b hi lo d2 d3 d4 d5 d6 d7 response [= <-] [= <-] [= <-] Hparse.
  rewrite parse_response_status in Hparse.
  destruct (tenths (be16 d4 d5)); [|done].
  destruct (tenths (be16 d6 d7)); [|done].
  injection Hparse as <-. simplify_map_eq.
  do 2 f_equal. rewrite be16_value, !land_255, Z.shiftr_div_pow2 by done.
  change (2 ^ 8) with 256.
  assert (0 <= n / 256 < 256)
    by (split; [apply Z.div_pos; lia | apply Z.div_lt_upper_bound; lia]).
  rewrite (Z.mod_small (n / 256)) by done.
  pose proof (Z.div_mod n 256). lia.
Qed.

Lemma all_reencode : forallb reencodes (seqZ 0 3401) = true.
Proof. by vm_compute. Qed.

(** X8: A heat reading up to 340.0 degrees (the 16-bit value [n] <= 3400 that
    STATUS and INFO divide by 10.0) is encoded by HEAT as the same 16-bit
    value: multiplying the decoded float by 10 and truncating gives [n]
    back, so the set value that [__off] and [__setval] send to toggle the
    heater is the value that the device reported. *)
Theorem heat_reading_round_trip (n : Z) :
  0 <= n <= 3400 ->
  exists f : float,
    tenths n = Ok (VFloat f)
    /\ encoded_int HEAT (VFloat f) = Ok n
    /\ to_bytes HEAT (VFloat f) = encode_frame HEAT n.
Proof.
  intros Hn.
  assert (Hre : reencodes n = true).
  { pose proof all_reencode as Hall.
    rewrite forallb_forall in Hall. apply Hall.
    apply list_elem_of_In, elem_of_seqZ. lia. }
  unfold reencodes in Hre.
  destruct (tenths n) as [[| | |f|]|]; try done.
  exists f. split; [done|].
  assert (Hint : encoded_int HEAT (VFloat f) = Ok n).
  { cbn [encoded_int py_float rbind].
    destruct (Float.to_Z _) as [m|]; [|done].
    by apply Z.eqb_eq in Hre as ->. }
  split; [done|]. cbn [to_bytes]. by rewrite Hint.
Qed.

End RoundTrips.

Lemma heat_reading_round_trip_witness :
  exists f : float,
    tenths 2000 = Ok (VFloat f)
    /\ @encoded_int digit_parsers HEAT (VFloat f) = Ok 2000
    /\ @to_bytes digit_parsers HEAT (VFloat f) = encode_frame HEAT 2000.
Proof. apply (@heat_reading_round_trip digit_parsers 2000). lia. Defined.

Lemma stir_round_trip_witness :
  is_ok (@to_bytes digit_parsers STIR (VInt 500)) = true.
Proof.
  apply (proj1 (@stir_round_trip digit_parsers 500)). lia.
Defined.

(** ** The duplex exchange *)

Section Exchange.
Import SerialThreadedDuplex.
Context {P : Type} `{Transport P}.


End Exchange.

(** ** The sequencer: status, ping and switching off *)

Section SequencerMore.
Import SerialThreadedDuplex MSHPro.
Context {P : Type} `{Transport P} `{StrParsers}.

(** X10: [ping] never raises: it returns [True] exactly when the PING command
    returns, and [False] when it raises; the connection is left as the
    command leaves it. *)
Theorem ping_never_raises (s : Serial P) :
  exists b : bool,
    ping s = ((__command PING VNone None s).1, Ok b)
    /\ (b = true <-> is_ok (__command PING VNone None s).2 = true).
Proof.
  unfold ping, try_except. rewrite bind_run.
  destruct (__command PING VNone None s) as [s' [r|e]] eqn:Hrun.
  - apply command_success in Hrun as Hsuccess; [|done..].
    rewrite Hsuccess, bind_lift_Ok. by exists true.
  - by exists false.
Qed.

(** A reply that decodes for INFO has the five INFO entries and
    ["success"], and nothing else. *)
Lemma parse_response_info_shape (b : bytes) (parsed : dict) :
  parse_response INFO b = Ok parsed ->
  exists (mode : string) (stir_on heat_on heat_alarm : bool)
         (heat_limit : float),
    parsed = <["success" := VBool true]>
               (<["heat_alarm" := VBool heat_alarm]>
                  (<["heat_limit" := VFloat heat_limit]>
                     (<["heat_on" := VBool heat_on]>
                        (<["stir_on" := VBool stir_on]>
                           (<["mode" := VStr mode]>
                              {["success" := VBool false]}))))).
Proof.
  unfold parse_response.
  destruct (_ <? len_rx INFO); [done|].
  destruct (py_index b 0) as [b0|]; [|done].
  destruct (py_index b 1) as [b1|]; [|done].
  destruct (py_index b (-1)) as [b_last|]; [|done].
  cbn [rbind]. destruct (negb _); [done|].
  unfold parse_info, or_parse_exception, tenths.
  destruct (py_index _ 0) as [d0|]; [|done]. cbn [rbind].
  destruct (str_at "_ABC" d0) as [mode|]; [|done]. cbn [rbind].
  destruct (py_index _ 1) as [d1|]; [|done]. cbn [rbind].
  destruct (py_index _ 2) as [d2|]; [|done]. cbn [rbind].
  destruct (py_index _ 3) as [d3|]; [|done]. cbn [rbind].
  destruct (py_index _ 4) as [d4|]; [|done]. cbn [rbind].
  destruct (Float.of_Z _) as [heat_limit|]; [|done]. cbn [rbind].
  destruct (py_index _ 5) as [d5|]; [|done]. cbn [rbind].
  intros [= <-]. by eexists _, _, _, _, _.
Qed.

(** A reply that decodes for STATUS has the four readings, as integers
    and as 16-bit integers divided by 10.0. *)
Lemma parse_response_status_shape (b : bytes) (parsed : dict) :
  parse_response STATUS b = Ok parsed ->
  exists (stir_set stir_actual heat_set heat_actual : Z) (hs ha : float),
    Float.of_Z heat_set = Ok hs
    /\ Float.of_Z heat_actual = Ok ha
    /\ parsed = <["success" := VBool true]>
                  (<["heat_actual" := VFloat (Float.div ha (Float.lit 10))]>
                     (<["heat_set" := VFloat (Float.div hs (Float.lit 10))]>
                        (<["stir_actual" := VInt stir_actual]>
                           (<["stir_set" := VInt stir_set]>
                              {["success" := VBool false]})))).
Proof.
  unfold parse_response.
  destruct (_ <? len_rx STATUS); [done|].
  destruct (py_index b 0) as [b0|]; [|done].
  destruct (py_index b 1) as [b1|]; [|done].
  destruct (py_index b (-1)) as [b_last|]; [|done].
  cbn [rbind]. destruct (negb _); [done|].
  unfold parse_status, or_parse_exception, tenths.
  destruct (py_index _ 0) as [d0|]; [|done]. cbn [rbind].
  destruct (py_index _ 1) as [d1|]; [|done]. cbn [rbind].
  destruct (py_index _ 2) as [d2|]; [|done]. cbn [rbind].
  destruct (py_index _ 3) as [d3|]; [|done]. cbn [rbind].
  destruct (py_index _ 4) as [d4|]; [|done]. cbn [rbind].
  destruct (py_index _ 5) as [d5|]; [|done]. cbn [rbind].
  destruct (Float.of_Z (be16 d4 d5)) as [hs|] eqn:Ehs; [|done].
  cbn [rbind].
  destruct (py_index _ 6) as [d6|]; [|done]. cbn [rbind].
  destruct (py_index _ 7) as [d7|]; [|done]. cbn [rbind].
  destruct (Float.of_Z (be16 d6 d7)) as [ha|] eqn:Eha; [|done].
  cbn [rbind]. intros [= <-].
  by exists (be16 d0 d1), (be16 d2 d3), (be16 d4 d5), (be16 d6 d7), hs, ha.
Qed.

(** What a raw status read returns, and what it has written. *)
Lemma status_raw_shape (s s' : Serial P) (r : dict) :
  status true s = (s', Ok r) ->
  written s' = written s ++ [[0xFE; 0xA2; 0x00; 0x00; 0x00; 0xA2];
                             [0xFE; 0xA1; 0x00; 0x00; 0x00; 0xA1]]
  /\ exists (stir_set stir_actual heat_set heat_actual : Z) (hs ha : float)
            (mode : string) (stir_on heat_on heat_alarm : bool)
            (heat_limit : float),
       Float.of_Z heat_set = Ok hs
       /\ Float.of_Z heat_actual = Ok ha
       /\ r !! "stir_set" = Some (VInt stir_set)
       /\ r !! "stir_actual" = Some (VInt stir_actual)
       /\ r !! "heat_set" = Some (VFloat (Float.div hs (Float.lit 10)))
       /\ r !! "heat_actual" = Some (VFloat (Float.div ha (Float.lit 10)))
       /\ r !! "mode" = Some (VStr mode)
       /\ r !! "stir_on" = Some (VBool stir_on)
       /\ r !! "heat_on" = Some (VBool heat_on)
       /\ r !! "heat_limit" = Some (VFloat heat_limit)
       /\ r !! "heat_alarm" = Some (VBool heat_alarm)
       /\ r !! "success" = Some (VBool true).
Proof.
  unfold status, bind. cbn [negb].
  destruct (__command STATUS VNone None s) as [s0 [r0|e]] eqn:Estatus;
    [|done].
  destruct (__command INFO VNone (Some r0) s0) as [s1 [r1|e]] eqn:Einfo;
    [|done].
  unfold ret. intros [= <- <-].
  destruct (command_returns_written _ _ _ _ _ _ Estatus)
    as (frame0 & [= <-] & Hwritten0).
  destruct (command_returns_written _ _ _ _ _ _ Einfo)
    as (frame1 & [= <-] & Hwritten1).
  split; [by rewrite Hwritten1, Hwritten0, <- app_assoc|].
  apply command_returns in Estatus as (_ & b0 & parsed0 & Hparsed0 & ->).
  apply command_returns in Einfo as (_ & b1 & parsed1 & Hparsed1 & ->).
  apply parse_response_status_shape in Hparsed0
    as (stir_set & stir_actual & heat_set & heat_actual & hs & ha
        & Hhs & Hha & ->).
  apply parse_response_info_shape in Hparsed1
    as (mode & stir_on & heat_on & heat_alarm & heat_limit & ->).
  exists stir_set, stir_actual, heat_set, heat_actual, hs, ha,
    mode, stir_on, heat_on, heat_alarm, heat_limit.
  repeat split; try done; by simplify_map_eq.
Qed.

(** X11: A raw status read that returns has made exactly two exchanges, STATUS
    then INFO, and its dictionary has all ten entries: the four readings of
    STATUS (two integers, two floats that are 16-bit integers divided by
    10.0), the five entries of INFO, and ["success"] true. *)
Theorem status_fields (s s' : Serial P) (r : dict) :
  status true s = (s', Ok r) ->
  written s' = written s ++ [[0xFE; 0xA2; 0x00; 0x00; 0x00; 0xA2];
                             [0xFE; 0xA1; 0x00; 0x00; 0x00; 0xA1]]
  /\ exists (stir_set stir_actual heat_set heat_actual : Z)
            (mode : string) (stir_on heat_on heat_alarm : bool)
            (heat_limit : float),
       r !! "stir_set" = Some (VInt stir_set)
       /\ r !! "stir_actual" = Some (VInt stir_actual)
       /\ Ok <$> r !! "heat_set" = Some (tenths heat_set)
       /\ Ok <$> r !! "heat_actual" = Some (tenths heat_actual)
       /\ r !! "mode" = Some (VStr mode)
       /\ r !! "stir_on" = Some (VBool stir_on)
       /\ r !! "heat_on" = Some (VBool heat_on)
       /\ r !! "heat_limit" = Some (VFloat heat_limit)
       /\ r !! "heat_alarm" = Some (VBool heat_alarm)
       /\ r !! "success" = Some (VBool true).
Proof.
  intros Hstatus.
  destruct (status_raw_shape _ _ _ Hstatus)
    as (Hwritten & stir_set & stir_actual & heat_set & heat_actual & hs & ha
        & mode & stir_on & heat_on & heat_alarm & heat_limit
        & Hhs & Hha & ? & ? & Hset & Hactual & ? & ? & ? & ? & ? & ?).
  split; [done|].
  exists stir_set, stir_actual, heat_set, heat_actual,
    mode, stir_on, heat_on, heat_alarm, heat_limit.
  unfold tenths. rewrite Hhs, Hha, Hset, Hactual. by repeat split.
Qed.

End SequencerMore.

(** ** The sequencer: what reaches the wire *)

Section WireFacts.
Import SerialThreadedDuplex MSHPro.
Context {P : Type} `{Transport P} `{StrParsers}.

Lemma emits_ret {A} (Q : bytes -> Prop) (R : A -> Prop) (a : A) :
  R a -> emits (P:=P) Q R (ret a).
Proof.
  intros Ha s. split; [exists []; by rewrite app_nil_r|].
  by intros a' [= <-].
Qed.

Lemma emits_raise {A} (Q : bytes -> Prop) (R : A -> Prop) (e : Exn) :
  emits (P:=P) Q R (raise e).
Proof. intros s. split; [exists []; by rewrite app_nil_r|done]. Qed.

Lemma emits_lift {A} (Q : bytes -> Prop) (R : A -> Prop) (r : result A) :
  (forall a, r = Ok a -> R a) -> emits (P:=P) Q R (lift r).
Proof.
  intros Hr s. split; [exists []; by rewrite app_nil_r|]. exact Hr.
Qed.

Lemma emits_bind {A B} (Q : bytes -> Prop) (R1 : A -> Prop)
    (R2 : B -> Prop) (m : @IO P A) (k : A -> @IO P B) :
  emits (P:=P) Q R1 m -> (forall a, R1 a -> emits (P:=P) Q R2 (k a)) ->
  emits (P:=P) Q R2 (bind m k).
Proof.
  intros Hm Hk s. rewrite bind_run.
  destruct (Hm s) as [(frames & Hframes & HQ) Hreturned].
  destruct (m s) as [s' [a|e]]; cbn [fst snd] in *.
  - destruct (Hk a (Hreturned a eq_refl) s')
      as [(frames' & Hframes' & HQ') Hreturned'].
    split; [|done]. exists (frames ++ frames').
    rewrite Hframes', Hframes, <- app_assoc. split; [done|].
    by apply Forall_app.
  - split; [by exists frames|done].
Qed.

Lemma emits_try_except {A} (Q : bytes -> Prop) (R : A -> Prop)
    (m : @IO P A) (h : Exn -> @IO P A) :
  emits (P:=P) Q R m -> (forall e, emits (P:=P) Q R (h e)) -> emits (P:=P) Q R (try_except m h).
Proof.
  intros Hm Hh s. unfold try_except.
  destruct (Hm s) as [(frames & Hframes & HQ) Hreturned].
  destruct (m s) as [s' [a|e]]; cbn [fst snd] in *.
  - split; [by exists frames|done].
  - destruct (Hh e s') as [(frames' & Hframes' & HQ') Hreturned'].
    split; [|done]. exists (frames ++ frames').
    rewrite Hframes', Hframes, <- app_assoc. split; [done|].
    by apply Forall_app.
Qed.

Lemma emits_mono {A} (Q Q' : bytes -> Prop) (R R' : A -> Prop) (m : @IO P A) :
  (forall frame, Q frame -> Q' frame) -> (forall a, R a -> R' a) ->
  emits (P:=P) Q R m -> emits (P:=P) Q' R' m.
Proof.
  intros HQ HR Hm s. destruct (Hm s) as [(frames & Hframes & Hall) Hret].
  split; [|by auto]. exists frames. split; [done|].
  by eapply Forall_impl.
Qed.

Lemma emits_bind_Ok {A B} (Q : bytes -> Prop) (R : B -> Prop) (a : A)
    (k : A -> @IO P B) :
  emits (P:=P) Q R (k a) -> emits (P:=P) Q R (bind (lift (Ok a)) k).
Proof. intros Hk s. rewrite bind_lift_Ok. apply Hk. Qed.

(** A command writes nothing but its own request, and what it returns is
    a decoded reply merged into its dictionary. *)
Lemma emits_command (Q : bytes -> Prop) (command : COMMUNICATION)
    (var : PyVal) (d : option dict) :
  (forall frame, to_bytes command var = Ok frame -> Q frame) ->
  emits (P:=P) Q
    (fun r => exists r_bytes parsed,
                parse_response command r_bytes = Ok parsed
                /\ r = parsed ∪ match d with None => ∅ | Some d => d end)
    (__command command var d).
Proof.
  intros HQ s. split.
  - destruct (command_written command var d s)
      as [Hsame | (frame & Hframe & Hwritten)].
    + exists []. by rewrite app_nil_r.
    + exists [frame]. split; [done|]. apply Forall_singleton. by apply HQ.
  - intros r Hr. destruct (__command command var d s) as [s' r0] eqn:Hrun.
    cbn [snd] in Hr. subst r0. by apply command_returns in Hrun as [_ ?].
Qed.

(** What a command returns was decoded from bytes that the port
    delivered in answer to the command's request. *)
Lemma command_reply (command : COMMUNICATION) (var : PyVal)
    (d : option dict) (s s' : Serial P) (r : dict) :
  __command command var d s = (s', Ok r) ->
  exists (p : P) (frame r_bytes : bytes) (parsed : dict),
    to_bytes command var = Ok frame
    /\ (port_exchange p frame (len_rx command)).2 = Ok r_bytes
    /\ parse_response command r_bytes = Ok parsed
    /\ r = parsed ∪ match d with None => ∅ | Some d => d end.
Proof.
  unfold __command, bind, serial_open, lift, write_with_read,
    __write_with_function, ret, value, exception.
  intros Hrun.
  destruct (if is_open s then (s, Ok tt) else open s) as [s0 [[]|e]];
    [|done].
  destruct (to_bytes command var) as [frame|e]; [|done].
  destruct (thread_running s0) eqn:Eidle; [done|].
  destruct (port_exchange (port s0) frame (len_rx command))
    as [p' received] eqn:Eexchange.
  cbn [rx_exception rx_thread rx_value thread_running is_alive] in Hrun.
  destruct received as [[|x r_bytes]|e]; [done| |done].
  destruct (parse_response command (x :: r_bytes)) as [parsed|e] eqn:Eparse;
    [|done].
  injection Hrun as <- <-.
  exists (port s0), frame, (x :: r_bytes), parsed.
  by rewrite Eexchange.
Qed.

(** The two replies behind a raw status dictionary. *)
Lemma status_replies (s s' : Serial P) (current_status : dict) :
  status true s = (s', Ok current_status) ->
  exists (p0 p1 : P) (b0 b1 : bytes) (parsed0 parsed1 : dict),
    (port_exchange p0 [0xFE; 0xA2; 0x00; 0x00; 0x00; 0xA2] 11).2 = Ok b0
    /\ parse_response STATUS b0 = Ok parsed0
    /\ (port_exchange p1 [0xFE; 0xA1; 0x00; 0x00; 0x00; 0xA1] 11).2 = Ok b1
    /\ parse_response INFO b1 = Ok parsed1
    /\ current_status = parsed1 ∪ (parsed0 ∪ ∅).
Proof.
  unfold status, bind. cbn [negb].
  destruct (__command STATUS VNone None s) as [s0 [r0|e]] eqn:Estatus;
    [|done].
  destruct (__command INFO VNone (Some r0) s0) as [s1 [r1|e]] eqn:Einfo;
    [|done].
  unfold ret. intros [= <- <-].
  apply command_reply in Estatus
    as (p0 & frame0 & b0 & parsed0 & [= <-] & Hb0 & Hparsed0 & ->).
  apply command_reply in Einfo
    as (p1 & frame1 & b1 & parsed1 & [= <-] & Hb1 & Hparsed1 & ->).
  by exists p0, p1, b0, b1, parsed0, parsed1.
Qed.

(** A status read writes status requests only, and the dictionary it
    returns describes the two channels. *)
Lemma emits_status (D : COMMUNICATION -> PyVal -> Prop)
    (raw_values : bool) :
  reports D ->
  emits (P:=P) status_request (channel_readings D raw_values)
    (status raw_values).
Proof.
  intros Hreports s. split.
  - rewrite status_state.
    assert (Hraw : emits (P:=P) status_request (fun _ => True) (status true)).
    { unfold status. cbn [negb].
      eapply emits_bind.
      { apply emits_command. intros frame [= <-]. by left. }
      intros r0 _. eapply emits_bind.
      { apply emits_command. intros frame [= <-]. by right. }
      intros r1 _. by apply emits_ret. }
    apply Hraw.
  - intros cs Hcs.
    destruct (status raw_values s) as [s' r] eqn:Hstatus.
    cbn [snd] in Hcs. subst r.
    assert (Hraw : exists r, status true s = (s', Ok r)
              /\ forall command, command = HEAT \/ command = STIR ->
                 exists (on : bool) (v : PyVal),
                   r !! (name_lower command +:+ "_on") = Some (VBool on)
                   /\ r !! (name_lower command +:+ "_set") = Some v
                   /\ D command v
                   /\ (raw_values = true -> cs = r)
                   /\ (raw_values = false ->
                       cs !! (name_lower command +:+ "_on")
                       = Some (VBool on)
                       /\ cs !! (name_lower command +:+ "_set")
                          = Some (if on then v else VStr "Off"))).
    { revert Hstatus. unfold status, bind.
      destruct (__command STATUS VNone None s) as [s0 [r0|e]] eqn:E0;
        [|done].
      destruct (__command INFO VNone (Some r0) s0) as [s1 [r1|e]] eqn:E1;
        [|done].
      intros Hrest.
      assert (Hshape : status true s = (s1, Ok r1)).
      { unfold status, bind. by rewrite E0, E1. }
      destruct (status_raw_shape _ _ _ Hshape)
        as (_ & stir_set & stir_actual & heat_set & heat_actual & hs & ha
            & mode & stir_on & heat_on & heat_alarm & heat_limit
            & Hhs & Hha & Hss & _ & Hset & _ & _ & Hso & Hho & _ & Hal & _).
      assert (Hs' : s' = s1 /\ (raw_values = true -> cs = r1)
                /\ (raw_values = false ->
                    cs = (if stir_on then
                            (if heat_on then r1
                             else <["heat_set" := VStr "Off"]> r1)
                          else <["stir_set" := VStr "Off"]>
                                 (if heat_on then r1
                                  else <["heat_set" := VStr "Off"]> r1)))).
      { destruct raw_values; cbn [negb] in Hrest.
        - injection Hrest as <- <-. by repeat split.
        - unfold lift, ret, dict_get in Hrest. rewrite Hho in Hrest.
          cbn [truthy] in Hrest.
          assert (Hso' : (if negb heat_on
                          then <["heat_set" := VStr "Off"]> r1 else r1)
                         !! "stir_on" = Some (VBool stir_on))
            by (destruct heat_on; cbn [negb]; by simplify_map_eq).
          rewrite Hso' in Hrest. cbn [truthy] in Hrest.
          assert (Hal' : (if negb stir_on
                          then <["stir_set" := VStr "Off"]>
                                 (if negb heat_on
                                  then <["heat_set" := VStr "Off"]> r1
                                  else r1)
                          else if negb heat_on
                               then <["heat_set" := VStr "Off"]> r1
                               else r1)
                         !! "heat_alarm" = Some (VBool heat_alarm))
            by (destruct heat_on, stir_on; cbn [negb]; by simplify_map_eq).
          rewrite Hal' in Hrest. injection Hrest as <- <-.
          split; [done|]. split; [done|]. intros _.
          by destruct heat_on, stir_on. }
      destruct Hs' as (-> & Hraw & Hnormal).
      exists r1. split; [done|]. intros command [-> | ->].
      - exists heat_on, (VFloat (Float.div hs (Float.lit 10))).
        split; [done|]. split; [done|].
        split; [by apply (Hreports s s1 r1 HEAT); [left|..]|].
        split; [done|]. intros Hfalse. rewrite (Hnormal Hfalse).
        destruct heat_on, stir_on; by simplify_map_eq.
      - exists stir_on, (VInt stir_set).
        split; [done|]. split; [done|].
        split; [by apply (Hreports s s1 r1 STIR); [right|..]|].
        split; [done|]. intros Hfalse. rewrite (Hnormal Hfalse).
        destruct heat_on, stir_on; by simplify_map_eq. }
    destruct Hraw as (r & _ & Hchannels).
    intros command Hcommand.
    destruct (Hchannels command Hcommand)
      as (on & v & Hon & Hv & Hreading & Hraw & Hnormal).
    destruct raw_values.
    + rewrite (Hraw eq_refl). exists on, v. by repeat split.
    + destruct (Hnormal eq_refl) as [Hon' Hv'].
      exists on, (if on then v else VStr "Off").
      split; [done|]. split; [done|].
      intros [-> | ?]; [done|discriminate].
Qed.

(** The loop of [__off] sends back set values that were read, nothing
    else. *)
Lemma emits_off_loop (D : COMMUNICATION -> PyVal -> Prop)
    (current_status : dict) (args : list COMMUNICATION) :
  channel_readings D false current_status ->
  Forall (fun command => command = HEAT \/ command = STIR) args ->
  emits (P:=P)
    (fun frame => exists command, command ∈ args
                                  /\ toggle_request D command frame)
    (fun _ => True)
    (__off_loop current_status args).
Proof.
  intros Hreadings Hargs.
  induction Hargs as [|command rest Hcommand _ IH]; cbn [__off_loop].
  { by apply emits_ret. }
  assert (Hrest : emits (P:=P)
            (fun frame => exists c, c ∈ command :: rest
                                    /\ toggle_request D c frame)
            (fun _ => True) (__off_loop current_status rest)).
  { eapply emits_mono; [| |exact IH]; [|done].
    intros frame (c & Hc & Hframe). exists c. split; [|done].
    by apply elem_of_cons; right. }
  destruct (Hreadings command Hcommand) as (on & v & Hon & Hv & Hreading).
  unfold dict_get at 1. rewrite Hon. apply emits_bind_Ok. cbn [truthy].
  destruct on; cbn [negb]; [|done].
  unfold dict_get at 1. rewrite Hv. apply emits_bind_Ok.
  eapply emits_bind.
  { apply emits_command. intros frame Hframe. exists command.
    split; [by apply elem_of_cons; left|]. exists v. by auto. }
  intros r _. eapply (emits_bind _ (fun _ => True)); [by apply emits_lift|].
  intros _ _. exact Hrest.
Qed.

Lemma emits_off (D : COMMUNICATION -> PyVal -> Prop)
    (args : list COMMUNICATION) :
  reports D ->
  Forall (fun command => command = HEAT \/ command = STIR) args ->
  emits (P:=P)
    (fun frame => status_request frame
                  \/ exists command, command ∈ args
                                     /\ toggle_request D command frame)
    (fun _ => True)
    (__off args).
Proof.
  intros Hreports Hargs. unfold __off. eapply emits_bind.
  { eapply emits_mono; [| |by apply (emits_status D false)]; [by left|done]. }
  intros current_status Hreadings.
  eapply emits_mono; [| |by apply emits_off_loop]; [by right|done].
Qed.

(** [__setval] sends the target or sends back the set value that it
    read. *)
Lemma emits_setval (D : COMMUNICATION -> PyVal -> Prop)
    (command : COMMUNICATION) (val : PyVal) :
  reports D ->
  command = HEAT \/ command = STIR ->
  emits (P:=P)
    (fun frame => status_request frame
                  \/ toggle_request D command frame
                  \/ to_bytes command val = Ok frame)
    (fun _ => True)
    (__setval command val).
Proof.
  intros Hreports Hcommand. unfold __setval. eapply emits_bind.
  { eapply emits_mono; [| |by apply (emits_status D true)]; [by left|done]. }
  intros current_status Hreadings.
  destruct (Hreadings command Hcommand) as (on & v & Hon & Hv & Hreading).
  specialize (Hreading (or_intror eq_refl)).
  unfold dict_get at 1. rewrite Hv. apply emits_bind_Ok.
  unfold dict_get at 1. rewrite Hon. apply emits_bind_Ok.
  set (target := match val with VNone => v | _ => val end).
  assert (Htarget : forall frame,
            to_bytes command target = Ok frame ->
            status_request frame \/ toggle_request D command frame
            \/ to_bytes command val = Ok frame).
  { intros frame Hframe. subst target.
    destruct val; try (by right; right).
    right. left. by exists v. }
  assert (Hsend : forall (sent : PyVal) (k : PyVal -> IO bool),
            (forall frame, to_bytes command sent = Ok frame ->
                           status_request frame
                           \/ toggle_request D command frame
                           \/ to_bytes command val = Ok frame) ->
            (forall success,
               emits (P:=P)
                 (fun frame => status_request frame
                               \/ toggle_request D command frame
                               \/ to_bytes command val = Ok frame)
                 (fun _ => True) (k success)) ->
            emits (P:=P)
              (fun frame => status_request frame
                            \/ toggle_request D command frame
                            \/ to_bytes command val = Ok frame)
              (fun _ => True)
              (bind (__command command sent None)
                 (fun r => bind (lift (dict_get r "success")) k))).
  { intros sent k Hsent Hk. eapply emits_bind.
    { by apply emits_command. }
    intros r _. eapply (emits_bind _ (fun _ => True)); [by apply emits_lift|].
    intros success _. apply Hk. }
  destruct (py_eq v target).
  - destruct (truthy (VBool on)); [by apply emits_ret|].
    apply Hsend.
    + intros frame Hframe. right. left. by exists v.
    + intros success. by apply emits_ret.
  - apply Hsend; [done|]. intros success.
    destruct (negb (truthy success)); [by apply emits_ret|].
    destruct (negb (truthy (VBool on))); [by apply emits_ret|].
    apply Hsend; [done|]. intros success'. by apply emits_ret.
Qed.

(** X12: [heat] puts no temperature of its own on the wire but a validated
    target: if every set value that the device reports satisfies [D],
    then, whatever the target and whatever the device answers, every
    request that [heat] writes is a status request, a HEAT request with a
    value satisfying [D], or the HEAT request of the target, and then the
    target is within [25.0, 340.0]. *)
Theorem heat_frames (D : COMMUNICATION -> PyVal -> Prop) (val : PyVal)
    (s : Serial P) :
  reports D ->
  exists frames : list bytes,
    written (heat val s).1 = written s ++ frames
    /\ Forall
         (fun frame =>
            status_request frame
            \/ toggle_request D HEAT frame
            \/ exists target : float,
                 py_float val = Ok target
                 /\ Float.leb HEATLIMIT_MIN target
                    && Float.leb target HEATLIMIT_MAX = true
                 /\ to_bytes HEAT (VFloat target) = Ok frame)
         frames.
Proof.
  set (Q := fun frame =>
              status_request frame
              \/ toggle_request D HEAT frame
              \/ exists target : float,
                   py_float val = Ok target
                   /\ Float.leb HEATLIMIT_MIN target
                      && Float.leb target HEATLIMIT_MAX = true
                   /\ to_bytes HEAT (VFloat target) = Ok frame).
  intros Hreports.
  assert (Hoff : emits (P:=P) Q (fun _ => True) heat_off).
  { eapply emits_mono; [| |apply (emits_off D [HEAT] Hreports)]; [|done|].
    - intros frame [? | (command & Hin & Htoggle)]; [by left|].
      apply list_elem_of_singleton in Hin as ->. right. by left.
    - apply Forall_singleton. by left. }
  assert (Hheat : emits (P:=P) Q (fun _ => True) (heat val)).
  { unfold heat. destruct (negb (truthy val)); [done|].
    apply emits_try_except.
    - destruct (py_float val) as [target|e] eqn:Hfloat.
      + apply emits_bind_Ok.
        destruct (Float.leb HEATLIMIT_MIN target
                  && Float.leb target HEATLIMIT_MAX) eqn:Hrange;
          cbn [negb].
        * eapply emits_bind; [|intros; by apply emits_ret].
          eapply emits_mono;
            [| |apply (emits_setval D HEAT (VFloat target) Hreports)];
            [|done|by left].
          intros frame [? | [? | Hframe]];
            [by left|by right; left|].
          right. right. by exists target.
        * eapply emits_bind; [exact Hoff|]. intros. apply emits_raise.
      + eapply (emits_bind _ (fun _ => False)); [by apply emits_lift|done].
    - intros e. eapply emits_bind; [exact Hoff|]. intros. apply emits_raise. }
  apply Hheat.
Qed.

(** X13: [stir] puts no speed of its own on the wire but a validated target:
    if every set value that the device reports satisfies [D], every
    request that [stir] writes is a status request, a STIR request with a
    value satisfying [D], or the STIR request of the target, and then the
    target is within [100, 1500]. *)
Theorem stir_frames (D : COMMUNICATION -> PyVal -> Prop) (val : PyVal)
    (s : Serial P) :
  reports D ->
  exists frames : list bytes,
    written (stir val s).1 = written s ++ frames
    /\ Forall
         (fun frame =>
            status_request frame
            \/ toggle_request D STIR frame
            \/ exists target : Z,
                 py_int val = Ok target
                 /\ STIRLIMIT_MIN <= target <= STIRLIMIT_MAX
                 /\ to_bytes STIR (VInt target) = Ok frame)
         frames.
Proof.
  set (Q := fun frame =>
              status_request frame
              \/ toggle_request D STIR frame
              \/ exists target : Z,
                   py_int val = Ok target
                   /\ STIRLIMIT_MIN <= target <= STIRLIMIT_MAX
                   /\ to_bytes STIR (VInt target) = Ok frame).
  intros Hreports.
  assert (Hstir : emits (P:=P) Q (fun _ => True) (stir val)).
  { unfold stir. destruct (negb (truthy val)).
    - eapply emits_mono; [| |apply (emits_off D [STIR] Hreports)]; [|done|].
      + intros frame [? | (command & Hin & Htoggle)]; [by left|].
        apply list_elem_of_singleton in Hin as ->. right. by left.
      + apply Forall_singleton. by right.
    - destruct (py_int val) as [target|e] eqn:Hint.
      + apply emits_bind_Ok.
        destruct (STIRLIMIT_MIN <=? target) eqn:Hmin;
          [|apply emits_raise].
        destruct (target <=? STIRLIMIT_MAX) eqn:Hmax;
          [|apply emits_raise].
        cbn [andb negb]. apply Z.leb_le in Hmin, Hmax.
        eapply emits_bind; [|intros; by apply emits_ret].
        eapply emits_mono;
          [| |apply (emits_setval D STIR (VInt target) Hreports)];
          [|done|by right].
        intros frame [? | [? | Hframe]];
          [by left|by right; left|].
        right. right. by exists target.
      + eapply (emits_bind _ (fun _ => False)); [by apply emits_lift|done]. }
  apply Hstir.
Qed.

End WireFacts.

(** ** The sequencer: switching off, and the outcomes of [heat] and [stir] *)

Section Outcomes.
Import SerialThreadedDuplex MSHPro.
Context {P : Type} `{Transport P} `{StrParsers}.

(** Sending a set value back and testing ["success"], as the loop of
    [__off] does. *)
Lemma toggle_step (command : COMMUNICATION) (v : PyVal) (k : IO unit)
    (s : Serial P) :
  command = HEAT \/ command = STIR ->
  bind (__command command v None)
    (fun r => bind (lift (dict_get r "success")) (fun _ => k)) s
  = match (__command command v None s).2 with
    | Ok _ => k (__command command v None s).1
    | Raise e => ((__command command v None s).1, Raise e)
    end.
Proof.
  intros Hcommand. rewrite bind_run.
  destruct (__command command v None s) as [s' [r|e]] eqn:Hrun; [|done].
  apply command_success in Hrun as ->; [done|..];
    by destruct Hcommand as [-> | ->].
Qed.

(** X14: [off] reads the status once and then switches off what is on, the
    heater first: a channel that is already off is skipped without a
    request, and when the HEAT command fails the exception leaves [off]
    at once, so that the stirrer is not switched off. *)
Theorem off_sequence (s s1 : Serial P) (current_status : dict)
    (heat_on stir_on : bool) (heat_set stir_set : PyVal) :
  status false s = (s1, Ok current_status) ->
  current_status !! "heat_on" = Some (VBool heat_on) ->
  current_status !! "stir_on" = Some (VBool stir_on) ->
  current_status !! "heat_set" = Some heat_set ->
  current_status !! "stir_set" = Some stir_set ->
  let first := if heat_on then __command HEAT heat_set None s1
               else (s1, Ok ∅) in
  let second := if stir_on then __command STIR stir_set None first.1
                else (first.1, Ok ∅) in
  off s = match first.2 with
          | Raise e => (first.1, Raise e)
          | Ok _ => (second.1, match second.2 with
                               | Ok _ => Ok tt
                               | Raise e => Raise e
                               end)
          end
  /\ (heat_on = false -> stir_on = false -> off s = (s1, Ok tt)).
Proof.
  intros Hstatus Hheat_on Hstir_on Hheat_set Hstir_set first second.
  assert (Hoff : off s = match first.2 with
                         | Raise e => (first.1, Raise e)
                         | Ok _ => (second.1, match second.2 with
                                              | Ok _ => Ok tt
                                              | Raise e => Raise e
                                              end)
                         end).
  { unfold off, __off. rewrite bind_run, Hstatus.
    cbn [__off_loop name_lower].
    change ("heat" +:+ "_on") with "heat_on".
    change ("heat" +:+ "_set") with "heat_set".
    change ("stir" +:+ "_on") with "stir_on".
    change ("stir" +:+ "_set") with "stir_set".
    assert (Hstir : forall s2 : Serial P,
      bind (lift (dict_get current_status "stir_on"))
        (fun on_status =>
           if negb (truthy on_status) then ret tt
           else bind (lift (dict_get current_status "stir_set"))
                  (fun set_value =>
                     bind (__command STIR set_value None)
                       (fun r => bind (lift (dict_get r "success"))
                                   (fun _ => ret tt)))) s2
      = ((if stir_on then __command STIR stir_set None s2
          else (s2, Ok ∅)).1,
         match (if stir_on then __command STIR stir_set None s2
                else (s2, Ok ∅)).2 with
         | Ok _ => Ok tt
         | Raise e => Raise e
         end)).
    { intros s2. unfold dict_get at 1. rewrite Hstir_on, bind_lift_Ok.
      cbn [truthy]. destruct stir_on; cbn [negb]; [|done].
      unfold dict_get at 1. rewrite Hstir_set, bind_lift_Ok.
      rewrite toggle_step by (by right).
      by destruct (__command STIR stir_set None s2) as [s3 [r|e]]. }
    unfold dict_get at 1. rewrite Hheat_on, bind_lift_Ok. cbn [truthy].
    subst second first. destruct heat_on; cbn [negb].
    - unfold dict_get at 1. rewrite Hheat_set, bind_lift_Ok.
      rewrite toggle_step by (by left).
      destruct (__command HEAT heat_set None s1) as [s2 [r|e]];
        cbn [fst snd]; [|done]. apply Hstir.
    - cbn [fst snd]. apply Hstir. }
  split; [done|]. intros -> ->. by rewrite Hoff.
Qed.


(** X16: [stir] validates before it touches the connection: a truthy target
    that does not convert to an integer, or converts to one outside
    [100, 1500], raises with the connection unchanged (nothing is read,
    nothing is written, and, unlike [heat], nothing is switched off); a
    target in range is handed to [__setval] as that integer, whose
    exception, if any, leaves [stir] as it is. *)
Theorem stir_outcomes (val : PyVal) (s : Serial P) :
  truthy val = true ->
  (forall e, py_int val = Raise e -> stir val s = (s, Raise e))
  /\ (forall target, py_int val = Ok target ->
      ~ STIRLIMIT_MIN <= target <= STIRLIMIT_MAX ->
      stir val s = (s, Raise (ValueError StirSettingOutsideRange)))
  /\ (forall target, py_int val = Ok target ->
      STIRLIMIT_MIN <= target <= STIRLIMIT_MAX ->
      let run := __setval STIR (VInt target) s in
      stir val s = (run.1, match run.2 with
                           | Ok _ => Ok tt
                           | Raise e => Raise e
                           end)
      /\ is_ok (to_bytes STIR (VInt target)) = true).
Proof.
  intros Htruthy. unfold stir. rewrite Htruthy. cbn [negb].
  split; [by intros e ->|]. split.
  - intros target -> Hrange. rewrite bind_lift_Ok.
    destruct (STIRLIMIT_MIN <=? target) eqn:Hmin;
      destruct (target <=? STIRLIMIT_MAX) eqn:Hmax; try done.
    apply Z.leb_le in Hmin, Hmax. lia.
  - intros target -> Hrange. cbv zeta. rewrite bind_lift_Ok.
    destruct (STIRLIMIT_MIN <=? target) eqn:Hmin;
      [|apply Z.leb_gt in Hmin; lia].
    destruct (target <=? STIRLIMIT_MAX) eqn:Hmax;
      [|apply Z.leb_gt in Hmax; lia].
    cbn [andb negb]. rewrite bind_run. split.
    + by destruct (__setval STIR (VInt target) s) as [s1 [b|e]].
    + unfold STIRLIMIT_MIN, STIRLIMIT_MAX in Hrange.
      cbn [to_bytes encoded_int py_int rbind]. unfold encode_frame.
      destruct (0 <=? target) eqn:E0; [|apply Z.leb_gt in E0; lia].
      destruct (target <=? 65535) eqn:E1; [|apply Z.leb_gt in E1; lia].
      done.
Qed.

End Outcomes.

(** ** Port names *)

Lemma prefix_app (needle rest : string) :
  String.prefix needle (needle +:+ rest) = true.
Proof.
  induction needle as [|c needle IH]; [by destruct rest|].
  change (String c needle +:+ rest) with (String c (needle +:+ rest)).
  cbn [String.prefix]. by destruct (Ascii.ascii_dec c c).
Qed.

Lemma str_index_from_unfold (hay needle : string) (pos : nat) :
  str_index_from hay needle pos
  = if String.prefix needle hay then Ok (Z.of_nat pos)
    else match hay with
         | EmptyString => Raise (ValueError SubstringNotFound)
         | String _ rest => str_index_from rest needle (S pos)
         end.
Proof. by destruct hay. Qed.

(** A substring is found by [str.index]. *)
Lemma str_index_from_app (before needle after : string) (pos : nat) :
  is_ok (str_index_from (before +:+ needle +:+ after) needle pos) = true.
Proof.
  revert pos. induction before as [|c before IH]; intros pos.
  - change ("" +:+ needle +:+ after) with (needle +:+ after).
    by rewrite str_index_from_unfold, prefix_app.
  - rewrite str_index_from_unfold.
    destruct (String.prefix needle _); [done|]. apply IH.
Qed.

Section PortNames.
Context `{StrParsers} `{OS}.

(** X17: On every platform whose name contains ["win"] (as ["win32"] does, and
    also ["cygwin"] and ["darwin"]), a port that [int] accepts is named
    [COM] followed by the integer; on the others it is named
    [/dev/ttyUSB] followed by the integer. *)
Theorem port_parser_platform (port : PyVal) (n : Z) :
  py_int port = Ok n ->
  (forall before after : string,
     platform = before +:+ "win" +:+ after ->
     port_parser port false = PortName ("COM" +:+ pretty n))
  /\ (str_contains platform "win" = false ->
      port_parser port false = PortName ("/dev/ttyUSB" +:+ pretty n)).
Proof.
  intros Hint. unfold port_parser, port_name. rewrite Hint. split.
  - intros before after Hplatform.
    assert (Hwin : str_contains platform "win" = true)
      by (rewrite Hplatform; apply str_index_from_app).
    by rewrite Hwin.
  - by intros ->.
Qed.

(** X18: What [port_parser] accepts: anything that [int] accepts names the
    same port as that integer (the string ["3"] as 3); a string that is
    not a number is kept as it is; and with [check_exists] a name is
    returned only if the path exists, a missing path being a
    [PortNotFoundException] for that name. *)
Theorem port_parser_outcome (port : PyVal) (check_exists : bool) :
  (forall n, py_int port = Ok n ->
     port_parser port check_exists = port_parser (VInt n) check_exists)
  /\ (forall s, port = VStr s -> int_of_str s = None ->
      port_parser port check_exists
      = if check_exists && negb (path_exists s)
        then PortNotFoundException s else PortName s)
  /\ (forall name, port_parser port true = PortName name ->
      path_exists name = true)
  /\ (forall name, port_parser port true = PortNotFoundException name ->
      path_exists name = false).
Proof.
  unfold port_parser, port_name. split; [|split; [|split]].
  - by intros n ->.
  - intros s -> Hs. cbn [py_int]. by rewrite Hs.
  - intros name. destruct (match py_int port with
                           | Ok _ => _ | Raise _ => _ end) as [name'|];
      [|done].
    cbn [andb]. destruct (path_exists name') eqn:E; [|done].
    by intros [= <-].
  - intros name. destruct (match py_int port with
                           | Ok _ => _ | Raise _ => _ end) as [name'|];
      [|done].
    cbn [andb]. destruct (path_exists name') eqn:E; [done|].
    by intros [= <-].
Qed.

End PortNames.

(** ** Text commands *)

Section TextCommands.
Import SerialThreadedDuplex MSHPro.
Context {P : Type} `{Transport P} `{StrParsers} `{StrMethods}.

(** X19: The text commands that are refused before the connection is touched:
    a text without a token is an [IndexError]; a first token that is not
    one of the six commands is the [ValueError] of an unknown command;
    STIR, HEAT or MODE without a second token is an [IndexError]; and
    [MODE OFF] is a [TypeError]. *)
Theorem text_command_refused (cmd : string) (s : Serial P) :
  (str_split (str_upper cmd) = [] ->
   text_command cmd s = (s, Raise IndexError))
  /\ (forall name rest,
        str_split (str_upper cmd) = name :: rest ->
        name ∉ ["PING"; "STATUS"; "OFF"; "STIR"; "HEAT"; "MODE"] ->
        text_command cmd s = (s, Raise (ValueError CouldNotFindCommand)))
  /\ (forall name,
        str_split (str_upper cmd) = [name] ->
        name ∈ ["STIR"; "HEAT"; "MODE"] ->
        text_command cmd s = (s, Raise IndexError))
  /\ (forall rest,
        str_split (str_upper cmd) = "MODE" :: "OFF" :: rest ->
        text_command cmd s = (s, Raise TypeError)).
Proof.
  unfold text_command. split; [|split; [|split]].
  - by intros ->.
  - intros name rest -> Hname.
    change (py_index (name :: rest) 0) with (Ok name).
    rewrite bind_lift_Ok. by rewrite bool_decide_eq_false_2.
  - intros name -> Hname.
    change (py_index [name] 0) with (Ok name). rewrite bind_lift_Ok.
    rewrite bool_decide_eq_true_2
      by (rewrite !elem_of_cons in *; tauto).
    cbn [negb]. by rewrite bool_decide_eq_true_2.
  - intros rest ->.
    change (py_index ("MODE" :: "OFF" :: rest) 0) with (Ok "MODE"%string).
    rewrite bind_lift_Ok.
    by rewrite !bool_decide_eq_true_2 by (rewrite !elem_of_cons; auto 10).
Qed.

(** X20: The argument [OFF] switches a channel off, and tokens after those
    that a command needs are ignored: [HEAT OFF ...] is a heat-off,
    [STIR OFF ...] a stir-off, [OFF ...] switches both off, and
    [STATUS ...] is the normalized status. *)
Theorem text_command_off (cmd : string) (rest : list string) (s : Serial P) :
  let finished (run : Serial P * result unit) :=
    (run.1, match run.2 with Ok _ => Ok RNone | Raise e => Raise e end) in
  (str_split (str_upper cmd) = "HEAT" :: "OFF" :: rest ->
   text_command cmd s = finished (heat_off s))
  /\ (str_split (str_upper cmd) = "STIR" :: "OFF" :: rest ->
      text_command cmd s = finished (stir_off s))
  /\ (str_split (str_upper cmd) = "OFF" :: rest ->
      text_command cmd s = finished (off s))
  /\ (str_split (str_upper cmd) = "STATUS" :: rest ->
      text_command cmd s
      = ((status false s).1,
         match (status false s).2 with
         | Ok d => Ok (RDict d)
         | Raise e => Raise e
         end)).
Proof.
  assert (Hreturning : forall {A} (f : A -> Returned) (m : IO A),
            returning f m s
            = ((m s).1, match (m s).2 with
                        | Ok a => Ok (f a)
                        | Raise e => Raise e
                        end)).
  { intros A f m. unfold returning. rewrite bind_run.
    by destruct (m s) as [s' [a|e]]. }
  intros finished. subst finished. unfold text_command.
  split; [|split; [|split]]; intros ->.
  - change (py_index ("HEAT" :: "OFF" :: rest) 0) with (Ok "HEAT"%string).
    rewrite bind_lift_Ok.
    rewrite !bool_decide_eq_true_2 by (rewrite !elem_of_cons; auto 10).
    cbn [negb].
    change (py_index ("HEAT" :: "OFF" :: rest) 1) with (Ok "OFF"%string).
    rewrite bind_lift_Ok.
    change ("OFF" =? "OFF")%string with true. cbv iota.
    change (call_value "HEAT" (VBool false) s)
      with (returning (fun _ => RNone) (heat (VBool false)) s).
    by rewrite Hreturning.
  - change (py_index ("STIR" :: "OFF" :: rest) 0) with (Ok "STIR"%string).
    rewrite bind_lift_Ok.
    rewrite !bool_decide_eq_true_2 by (rewrite !elem_of_cons; auto 10).
    cbn [negb].
    change (py_index ("STIR" :: "OFF" :: rest) 1) with (Ok "OFF"%string).
    rewrite bind_lift_Ok.
    change ("OFF" =? "OFF")%string with true. cbv iota.
    change (call_value "STIR" (VBool false) s)
      with (returning (fun _ => RNone) (stir (VBool false)) s).
    by rewrite Hreturning.
  - change (py_index ("OFF" :: rest) 0) with (Ok "OFF"%string).
    rewrite bind_lift_Ok.
    rewrite bool_decide_eq_true_2 by (rewrite !elem_of_cons; auto 10).
    rewrite bool_decide_eq_false_2
      by (rewrite !elem_of_cons, elem_of_nil; intros [|[|[|]]]; done).
    cbn [negb].
    change (call_plain "OFF" s)
      with (returning (fun _ => RNone) off s).
    by rewrite Hreturning.
  - change (py_index ("STATUS" :: rest) 0) with (Ok "STATUS"%string).
    rewrite bind_lift_Ok.
    rewrite bool_decide_eq_true_2 by (rewrite !elem_of_cons; auto 10).
    rewrite bool_decide_eq_false_2
      by (rewrite !elem_of_cons, elem_of_nil; intros [|[|[|]]]; done).
    cbn [negb].
    change (call_plain "STATUS" s)
      with (returning RDict (status false) s).
    by rewrite Hreturning.
Qed.

End TextCommands.

(** ** The model at work on a scripted port *)

#[local] Existing Instances Scripted_transport digit_parsers.

Import SerialThreadedDuplex MSHPro.

(** The scenario table of [__setval] on the heat channel, set to 200.0:
    the requests written are the two status requests followed by no, one,
    one and two HEAT requests. *)
Example setval_on_at_target :
  let s := connection [status_reply 500 0 2000 215; info_reply 1 1 0] in
  __setval HEAT (VFloat (Float.lit 200)) s
  = ((status true s).1, Ok true)
  /\ length (written (__setval HEAT (VFloat (Float.lit 200)) s).1) = 2%nat.
Proof. by vm_compute. Qed.

Example setval_off_at_target :
  let s := connection [status_reply 500 0 2000 215; info_reply 1 1 1;
                       ack HEAT] in
  (__setval HEAT (VFloat (Float.lit 200)) s).2 = Ok true
  /\ written (__setval HEAT (VFloat (Float.lit 200)) s).1
     = [[0xFE; 0xA2; 0x00; 0x00; 0x00; 0xA2];
        [0xFE; 0xA1; 0x00; 0x00; 0x00; 0xA1];
        [0xFE; 0xB2; 0x07; 0xD0; 0x00; 0x89]].
Proof. by vm_compute. Qed.

Example setval_off_new_target :
  let s := connection [status_reply 500 0 2000 215; info_reply 1 1 1;
                       ack HEAT] in
  (__setval HEAT (VFloat (Float.lit 250)) s).2 = Ok true
  /\ written (__setval HEAT (VFloat (Float.lit 250)) s).1
     = [[0xFE; 0xA2; 0x00; 0x00; 0x00; 0xA2];
        [0xFE; 0xA1; 0x00; 0x00; 0x00; 0xA1];
        [0xFE; 0xB2; 0x09; 0xC4; 0x00; 0x7F]].
Proof. by vm_compute. Qed.

Example setval_on_new_target :
  let s := connection [status_reply 500 0 2000 215; info_reply 1 1 0;
                       ack HEAT; ack HEAT] in
  (__setval HEAT (VFloat (Float.lit 250)) s).2 = Ok true
  /\ written (__setval HEAT (VFloat (Float.lit 250)) s).1
     = [[0xFE; 0xA2; 0x00; 0x00; 0x00; 0xA2];
        [0xFE; 0xA1; 0x00; 0x00; 0x00; 0xA1];
        [0xFE; 0xB2; 0x09; 0xC4; 0x00; 0x7F];
        [0xFE; 0xB2; 0x09; 0xC4; 0x00; 0x7F]].
Proof. by vm_compute. Qed.

(** The first of the two sends is refused by the device: [__setval] stops
    there. *)
Example setval_on_new_target_refused :
  let s := connection [status_reply 500 0 2000 215; info_reply 1 1 0;
                       Ok (response_frame HEAT [0x01; 0x00; 0x00]);
                       ack HEAT] in
  (__setval HEAT (VFloat (Float.lit 250)) s).2 = Raise HotplateException
  /\ length (written (__setval HEAT (VFloat (Float.lit 250)) s).1) = 3%nat.
Proof. by vm_compute. Qed.

(** A port that never answers: the heat-off inside [heat] raises
    [NoDataException], the handler's heat-off raises it again, and that is
    what leaves [heat]; two STATUS requests were written. *)
Example heat_on_silent_port :
  let s := connection [] in
  heat (VInt 1000) s
  = ((heat_off (heat_off s).1).1, Raise NoDataException)
  /\ written (heat (VInt 1000) s).1
     = [[0xFE; 0xA2; 0x00; 0x00; 0x00; 0xA2];
        [0xFE; 0xA2; 0x00; 0x00; 0x00; 0xA2]].
Proof. by vm_compute. Qed.

(** A heater that is on, with a target out of range: the first heat-off
    toggles it off with its own set value (200.0), the second finds it
    off; 1000.0 is never sent. *)
Example heat_out_of_range_requests :
  let s := connection [status_reply 500 0 2000 215; info_reply 1 1 0;
                       ack HEAT;
                       status_reply 500 0 2000 215; info_reply 1 1 1] in
  (heat (VInt 1000) s).2 = Raise (ValueError HeatSettingOutsideRange)
  /\ written (heat (VInt 1000) s).1
     = [[0xFE; 0xA2; 0x00; 0x00; 0x00; 0xA2];
        [0xFE; 0xA1; 0x00; 0x00; 0x00; 0xA1];
        [0xFE; 0xB2; 0x07; 0xD0; 0x00; 0x89];
        [0xFE; 0xA2; 0x00; 0x00; 0x00; 0xA2];
        [0xFE; 0xA1; 0x00; 0x00; 0x00; 0xA1]].
Proof. by vm_compute. Qed.

(** From A to C with a device that refuses the first cycle command: the
    loop of [mode] ends there. *)
Example mode_cycle_refused :
  let s := connection [info_reply 1 1 1;
                       Ok (response_frame _MODE [0x01; 0x00; 0x00]);
                       ack _MODE] in
  (mode "C" s).2 = Raise HotplateException
  /\ written (mode "C" s).1
     = [[0xFE; 0xA1; 0x00; 0x00; 0x00; 0xA1];
        [0xFE; 0xB3; 0x00; 0x00; 0x00; 0xB3]].
Proof. by vm_compute. Qed.

(** Already in the requested mode: the INFO request only. *)
Example mode_already_set :
  let s := connection [info_reply 2 1 1] in
  (mode "B" s).2 = Ok tt
  /\ written (mode "B" s).1 = [[0xFE; 0xA1; 0x00; 0x00; 0x00; 0xA1]].
Proof. by vm_compute. Qed.

(** The conversions of [to_bytes] raise Python's own errors: [int] of a
    NaN is a [ValueError], of an infinity an [OverflowError]; a string
    that is not a number is a [ValueError]. *)
Example to_bytes_conversion_errors :
  to_bytes HEAT (VFloat S754_nan) = Raise (ValueError FloatNaNToInteger)
  /\ to_bytes HEAT (VFloat (S754_infinity false)) = Raise OverflowError
  /\ to_bytes STIR (VStr "fast") = Raise (ValueError InvalidLiteral)
  /\ to_bytes STIR (VStr "560") = Ok [0xFE; 0xB1; 0x02; 0x30; 0x00; 0xE3].
Proof. by vm_compute. Qed.

Lemma setval_transactions_witness :
  let s := connection [status_reply 500 0 2000 215; info_reply 1 1 0;
                       ack HEAT; ack HEAT] in
  let s1 := (status true s).1 in
  let target := VFloat (Float.lit 250) in
  let frame := [0xFE; 0xB2; 0x09; 0xC4; 0x00; 0x7F] in
  exists s2 r,
    __command HEAT target None s1 = (s2, r)
    /\ written s2 = written s1 ++ [frame]
    /\ match r with
       | Raise e => __setval HEAT target s = (s2, Raise e)
       | Ok _ =>
           exists s3 r',
             __command HEAT target None s2 = (s3, r')
             /\ written s3 = written s1 ++ [frame; frame]
             /\ __setval HEAT target s
                = (s3, match r' with
                       | Ok _ => Ok true
                       | Raise e => Raise e
                       end)
       end.
Proof.
  intros s s1 target frame.
  set (current_status :=
         match (status true s).2 with Ok d => d | Raise _ => ∅ end).
  set (set_value := VFloat (Float.div (Float.lit 2000) (Float.lit 10))).
  assert (Hstatus : status true s = (s1, Ok current_status))
    by (vm_compute; reflexivity).
  assert (Hset : current_status !! (name_lower HEAT +:+ "_set")
                 = Some set_value)
    by (vm_compute; reflexivity).
  assert (Hon : current_status !! (name_lower HEAT +:+ "_on")
                = Some (VBool true))
    by (vm_compute; reflexivity).
  assert (Hdiffers : py_eq set_value target = false)
    by (vm_compute; reflexivity).
  assert (Hframe : to_bytes HEAT target = Ok frame)
    by (vm_compute; reflexivity).
  pose proof (setval_transactions HEAT target s s1 current_status
                set_value (VBool true) (or_intror eq_refl)
                Hstatus Hset Hon) as (_ & _ & _ & Hcase).
  exact (Hcase Hdiffers eq_refl frame Hframe).
Defined.


Lemma mode_cycles_witness :
  let s := connection [info_reply 1 1 1; ack _MODE; ack _MODE] in
  mode "C" s = cycle_mode 2 (_info s).1
  /\ written (mode "C" s).1
     = [[0xFE; 0xA1; 0x00; 0x00; 0x00; 0xA1];
        [0xFE; 0xB3; 0x00; 0x00; 0x00; 0xB3];
        [0xFE; 0xB3; 0x00; 0x00; 0x00; 0xB3]]
  /\ (mode "C" s).2 = Ok tt.
Proof.
  intros s.
  assert (Hinfo : _info s
                  = ((_info s).1,
                     Ok (match (_info s).2 with Ok d => d | Raise _ => ∅ end)))
    by (vm_compute; reflexivity).
  assert (Hmode : (match (_info s).2 with Ok d => d | Raise _ => ∅ end)
                  !! "mode" = Some (VStr "A"))
    by (vm_compute; reflexivity).
  pose proof (mode_cycles "C" s _ _ "A" 2 0 eq_refl Hinfo Hmode eq_refl)
    as (_ & Hrun & _).
  split; [exact Hrun|].
  split; vm_compute; reflexivity.
Defined.

Lemma status_normalized_witness :
  let s := connection [status_reply 500 0 2000 215; info_reply 1 1 0] in
  exists r' : dict,
    status false s = ((status true s).1, Ok r')
    /\ r' !! "heat_set"
       = Some (VFloat (Float.div (Float.lit 2000) (Float.lit 10)))
    /\ r' !! "stir_set" = Some (VStr "Off")
    /\ r' !! "heat_alarm" = Some (VBool true).
Proof.
  intros s.
  assert (Hraw : status true s
                 = ((status true s).1,
                    Ok (match (status true s).2 with
                        | Ok d => d
                        | Raise _ => ∅
                        end)))
    by (vm_compute; reflexivity).
  pose proof (status_normalized s _ _ Hraw)
    as (heat_on & stir_on & heat_alarm & r'
        & Hheat_on & Hstir_on & Halarm & Hrun & Hheat & Hstir & Hkept & _).
  exists r'.
  assert (heat_on = true) as -> by (vm_compute in Hheat_on; congruence).
  assert (stir_on = false) as -> by (vm_compute in Hstir_on; congruence).
  assert (heat_alarm = true) as -> by (vm_compute in Halarm; congruence).
  split; [exact Hrun|]. split; [|split; [exact Hstir|exact Hkept]].
  rewrite Hheat; vm_compute; reflexivity.
Defined.

(** ** Further runs on the fixtures *)


Lemma steady_hotplate_reports :
  @reports unit steady_hotplate digit_parsers steady_values.
Proof.
  intros s0 s1 current_status command v Hcommand Hstatus Hv.
  apply status_replies in Hstatus
    as ([] & [] & b0 & b1 & parsed0 & parsed1
        & Hb0 & Hparsed0 & Hb1 & Hparsed1 & ->).
  injection Hb0 as <-. injection Hb1 as <-.
  set (reply0 := response_frame STATUS _) in Hparsed0.
  set (reply1 := response_frame INFO _) in Hparsed1.
  assert (Hd0 : parsed0 = match parse_response STATUS reply0 with
                          | Ok d => d
                          | Raise _ => ∅
                          end) by (by rewrite Hparsed0).
  assert (Hd1 : parsed1 = match parse_response INFO reply1 with
                          | Ok d => d
                          | Raise _ => ∅
                          end) by (by rewrite Hparsed1).
  clear Hparsed0 Hparsed1. subst parsed0 parsed1.
  destruct Hcommand as [-> | ->]; cbn [steady_values].
  - change (name_lower HEAT +:+ "_set") with "heat_set" in Hv.
    match type of Hv with
    | ?m !! _ = _ =>
        assert (Hlook : m !! "heat_set"
                        = Some (VFloat (Float.div (Float.lit 2000)
                                          (Float.lit 10))))
          by (vm_compute; reflexivity)
    end.
    rewrite Hlook in Hv. by injection Hv as <-.
  - change (name_lower STIR +:+ "_set") with "stir_set" in Hv.
    match type of Hv with
    | ?m !! _ = _ =>
        assert (Hlook : m !! "stir_set" = Some (VInt 500))
          by (vm_compute; reflexivity)
    end.
    rewrite Hlook in Hv. by injection Hv as <-.
Qed.

Lemma heat_frames_witness :
  exists frames : list bytes,
    written (@heat unit steady_hotplate digit_parsers (VInt 1000)
               (init tt)).1
    = written (init tt) ++ frames
    /\ Forall
         (fun frame =>
            status_request frame
            \/ toggle_request (H0:=digit_parsers) steady_values HEAT frame
            \/ exists target : float,
                 @py_float digit_parsers (VInt 1000) = Ok target
                 /\ Float.leb HEATLIMIT_MIN target
                    && Float.leb target HEATLIMIT_MAX = true
                 /\ @to_bytes digit_parsers HEAT (VFloat target) = Ok frame)
         frames.
Proof.
  exact (@heat_frames unit steady_hotplate digit_parsers steady_values
           (VInt 1000) (init tt) steady_hotplate_reports).
Defined.

Lemma stir_frames_witness :
  exists frames : list bytes,
    written (@stir unit steady_hotplate digit_parsers (VStr "560")
               (init tt)).1
    = written (init tt) ++ frames
    /\ Forall
         (fun frame =>
            status_request frame
            \/ toggle_request (H0:=digit_parsers) steady_values STIR frame
            \/ exists target : Z,
                 @py_int digit_parsers (VStr "560") = Ok target
                 /\ STIRLIMIT_MIN <= target <= STIRLIMIT_MAX
                 /\ @to_bytes digit_parsers STIR (VInt target) = Ok frame)
         frames.
Proof.
  exact (@stir_frames unit steady_hotplate digit_parsers steady_values
           (VStr "560") (init tt) steady_hotplate_reports).
Defined.

Lemma ping_never_raises_witness :
  exists b : bool,
    ping (connection [ack PING])
    = ((__command PING VNone None (connection [ack PING])).1, Ok b)
    /\ (b = true
        <-> is_ok (__command PING VNone None (connection [ack PING])).2
            = true).
Proof. exact (ping_never_raises (connection [ack PING])). Defined.

Lemma status_fields_witness :
  let s := connection [status_reply 500 0 2000 215; info_reply 1 1 0] in
  written (status true s).1
  = written s ++ [[0xFE; 0xA2; 0x00; 0x00; 0x00; 0xA2];
                  [0xFE; 0xA1; 0x00; 0x00; 0x00; 0xA1]].
Proof.
  intros s.
  assert (Hstatus : status true s
                    = ((status true s).1,
                       Ok (match (status true s).2 with
                           | Ok d => d
                           | Raise _ => ∅
                           end)))
    by (vm_compute; reflexivity).
  exact (proj1 (status_fields s _ _ Hstatus)).
Defined.

Lemma off_sequence_witness :
  let s := connection [status_reply 500 0 2000 215; info_reply 1 1 1] in
  off s = ((status false s).1, Ok tt).
Proof.
  intros s.
  set (current_status :=
         match (status false s).2 with Ok d => d | Raise _ => ∅ end).
  assert (Hstatus : status false s = ((status false s).1, Ok current_status))
    by (vm_compute; reflexivity).
  assert (Hheat_on : current_status !! "heat_on" = Some (VBool false))
    by (vm_compute; reflexivity).
  assert (Hstir_on : current_status !! "stir_on" = Some (VBool false))
    by (vm_compute; reflexivity).
  assert (Hheat_set : current_status !! "heat_set" = Some (VStr "Off"))
    by (vm_compute; reflexivity).
  assert (Hstir_set : current_status !! "stir_set" = Some (VStr "Off"))
    by (vm_compute; reflexivity).
  exact (proj2 (off_sequence s _ current_status false false _ _
                  Hstatus Hheat_on Hstir_on Hheat_set Hstir_set)
           eq_refl eq_refl).
Defined.


Lemma stir_outcomes_witness :
  let s := connection [] in
  stir (VInt 2000) s = (s, Raise (ValueError StirSettingOutsideRange)).
Proof.
  intros s.
  apply (proj1 (proj2 (stir_outcomes (VInt 2000) s eq_refl)) 2000 eq_refl).
  unfold STIRLIMIT_MIN, STIRLIMIT_MAX. lia.
Defined.

Lemma port_parser_platform_witness :
  @port_parser digit_parsers
     {| platform := "darwin"; path_exists := fun _ => true |}
     (VInt 0) false
  = PortName "COM0".
Proof.
  exact (proj1 (@port_parser_platform digit_parsers
                  {| platform := "darwin"; path_exists := fun _ => true |}
                  (VInt 0) 0 eq_refl)
           "dar"%string ""%string eq_refl).
Defined.

Lemma port_parser_outcome_witness :
  @port_parser digit_parsers (linux_with ["/dev/ttyUSB3"]) (VStr "3") true
  = @port_parser digit_parsers (linux_with ["/dev/ttyUSB3"]) (VInt 3) true.
Proof.
  exact (proj1 (@port_parser_outcome digit_parsers
                  (linux_with ["/dev/ttyUSB3"]) (VStr "3") true)
           3 eq_refl).
Defined.

#[local] Existing Instance ascii_methods.

Lemma text_command_refused_witness :
  text_command "heat" (connection []) = (connection [], Raise IndexError).
Proof.
  apply (proj1 (proj2 (proj2
           (text_command_refused "heat" (connection [])))) "HEAT"%string).
  - reflexivity.
  - rewrite !elem_of_cons. auto.
Defined.

Lemma text_command_off_witness :
  let s := connection [] in
  text_command "heat off" s
  = ((heat_off s).1,
     match (heat_off s).2 with Ok _ => Ok RNone | Raise e => Raise e end).
Proof.
  intros s.
  exact (proj1 (text_command_off "heat off" [] s) eq_refl).
Defined.
